(** * hockey-seo-backend: a shallow embedding of [server.js]

    The analysis pipeline of the Express handler [POST /api/analyze] and of
    its helper functions, written as Rocq functions, followed by the
    properties of the pipeline.

    Conventions.
    - JavaScript strings are [string]s; only prefix, substring, split and
      lower-casing are used, none of which looks inside a character, so the
      width of a code unit plays no role.  [toLowerCase] lowers the letters
      [A]..[Z] and leaves every other character alone.
    - The integers the code computes with are small and exact; they are [Z].
      A value drawn by [Math.random] is a rational in [[0,1)], and the
      literal [0.6] is the rational [3/5]: no double lies between the two.
      The product of a draw and an integer is taken exactly, where the
      machine rounds it to the nearest double; what is stated about such a
      product holds with the rounding as well.
    - [null] and [undefined] are both [None].
    - The outside world (the replies of the provider and the draws of the
      random generator) is an explicit state threaded through the code; an
      exception is a result of its own. *)

From Stdlib Require Import List String Ascii Bool Arith ZArith QArith Qround Lia Lqa.
From Stdlib Require Import Permutation Sorted DecimalString DecimalZ.
Import ListNotations.

Open Scope string_scope.
Open Scope Z_scope.

(* ================================================================== *)
(** ** JavaScript values used by the program *)

Module Js.

(** [s.startsWith(t)] *)
Fixpoint startsWith (s t : string) : bool :=
  match t, s with
  | EmptyString, _ => true
  | String _ _, EmptyString => false
  | String b t', String a s' => Ascii.eqb a b && startsWith s' t'
  end.

(** [s.includes(t)]: [t] occurs in [s] at some position. *)
Fixpoint includes (s t : string) : bool :=
  startsWith s t ||
  match s with
  | EmptyString => false
  | String _ s' => includes s' t
  end.

Definition lowerChar (c : ascii) : ascii :=
  let n := nat_of_ascii c in
  if (65 <=? n)%nat && (n <=? 90)%nat then ascii_of_nat (n + 32) else c.

(** [s.toLowerCase()] *)
Fixpoint toLowerCase (s : string) : string :=
  match s with
  | EmptyString => EmptyString
  | String c s' => String (lowerChar c) (toLowerCase s')
  end.

(** [s.split(sep)] for a separator of one character: the pieces between
    the occurrences of [sep], empty pieces included; never the empty
    array. *)
Fixpoint split (sep : ascii) (s : string) : list string :=
  match s with
  | EmptyString => [EmptyString]
  | String c s' =>
      if Ascii.eqb c sep then EmptyString :: split sep s'
      else match split sep s' with
           | w :: ws => String c w :: ws
           | [] => [String c EmptyString]
           end
  end.

(** What an element of a JSON array can be where the program expects a
    string: a string, [null], a number, a boolean or an object.  An array as
    element is not modelled: it has an [includes] method of its own, and the
    handler builds a record for it as it does for a string. *)
Inductive value :=
| Str (s : string)
| Null
| Num (n : Q)
| Bool (b : bool)
| Obj (fields : list (string * value)).

(** Truthiness of a value that is a string when present: absent values
    and the empty string are falsy. *)
Definition truthy (v : option string) : bool :=
  match v with
  | Some (String _ _) => true
  | _ => false
  end.

(** [`${n}`] for an integer [n]. *)
Definition numberToString (n : Z) : string :=
  NilEmpty.string_of_int (Z.to_int n).

(** [`${v}`] for a value that may be absent. *)
Definition template (v : option string) : string :=
  match v with
  | Some s => s
  | None => "undefined"
  end.

(** [v === n] for a number [n] and a value that is a number when
    present. *)
Definition strictEqualsNumber (v : option Z) (n : Z) : bool :=
  match v with
  | Some x => x =? n
  | None => false
  end.

(** [Math.floor] on a rational. *)
Definition floor (q : Q) : Z := Qfloor q.

(** [arr.some(p)] *)
Definition some {A} (p : A -> bool) (arr : list A) : bool := existsb p arr.

(** [arr.includes(x)] on an array of strings. *)
Definition arrayIncludes (arr : list string) (x : string) : bool :=
  existsb (String.eqb x) arr.

(** [arr.slice(0, n)] *)
Definition slice0 {A} (n : nat) (arr : list A) : list A := firstn n arr.

(** [arr.sort(cmp)].  The sort is stable (ECMAScript 2019; engines before
    that sorted arrays this short by insertion): an element moves in front
    of exactly the elements [y] after it with [cmp x y > 0]. *)
Fixpoint sortInsert {A} (cmp : A -> A -> Z) (x : A) (l : list A) : list A :=
  match l with
  | [] => [x]
  | y :: l' => if 0 <? cmp x y then y :: sortInsert cmp x l' else x :: y :: l'
  end.

Fixpoint sort {A} (cmp : A -> A -> Z) (arr : list A) : list A :=
  match arr with
  | [] => []
  | x :: arr' => sortInsert cmp x (sort cmp arr')
  end.

End Js.

(** A string is a value. *)
Coercion Js.Str : string >-> Js.value.

(* ================================================================== *)
(** ** The pure helpers *)

(** [isTeamSite(domain, teamName)] *)
Definition isTeamSite (domain : option string) (teamName : string) : bool :=
  match domain with
  | None => false
  | Some EmptyString => false
  | Some d =>
      let teamWords := Js.split " " (Js.toLowerCase teamName) in
      let cleanDomain := Js.toLowerCase d in
      Js.some (fun word => Js.includes cleanDomain word) teamWords
  end.

Definition ticketResellers : list string :=
  ["ticketmaster.com"; "stubhub.com"; "seatgeek.com"; "vividseats.com"].

(** [calculateOpportunityScore(keyword, teamRank, competitors)] *)
Definition calculateOpportunityScore
    (keyword : string) (teamRank : Z) (competitors : list string) : Z :=
  let score := 5 in
  let score :=
    if Js.includes keyword "first time" || Js.includes keyword "what to expect"
    then score + 3 else score in
  let score := if Js.includes keyword "parking" then score + 2 else score in
  let score :=
    if Js.includes keyword "tickets" || Js.includes keyword "cheap"
    then score + 2 else score in
  let score := if Js.includes keyword "seating" then score + 1 else score in
  let score :=
    if teamRank =? -1 then score + 3
    else if 10 <? teamRank then score + 2
    else if 5 <? teamRank then score + 1
    else if teamRank <=? 3 then score - 1
    else score in
  let hasTicketResellers :=
    Js.some (fun comp =>
               Js.some (fun reseller => Js.includes comp reseller) ticketResellers)
            competitors in
  let score := if hasTicketResellers then score + 1 else score in
  Z.min (Z.max score 3) 10.

(** [getGapType(keyword, competitors)] *)
Definition getGapType (keyword : string) (competitors : list string) : string :=
  if Js.includes keyword "first time" || Js.includes keyword "what to expect"
  then "First-Timer Experience Gap"
  else if Js.includes keyword "parking"
  then "Arena Information Gap"
  else if Js.some (fun comp =>
                     Js.arrayIncludes
                       ["ticketmaster.com"; "stubhub.com"; "seatgeek.com"] comp)
                  competitors
  then "Ticket Reseller Dominance"
  else if Js.includes keyword "seating" || Js.includes keyword "arena"
  then "Venue Experience Gap"
  else "General Content Gap".

Record ContentSuggestion := {
  title : string;
  format : string;
  cta : string
}.

(** [getContentSuggestion(keyword)] *)
Definition getContentSuggestion (keyword : string) : ContentSuggestion :=
  if Js.includes keyword "first time" || Js.includes keyword "what to expect"
  then {| title := "Complete First-Timer's Hockey Guide";
          format := "FAQ-style guide with arena tips and terminology";
          cta := "Buy Official Tickets" |}
  else if Js.includes keyword "parking"
  then {| title := "Ultimate Arena Parking Guide";
          format := "Interactive map with pricing and walking times";
          cta := "Reserve Parking & Tickets" |}
  else if Js.includes keyword "seating"
  then {| title := "Interactive Arena Seating Guide";
          format := "Visual seating chart with ice view photos";
          cta := "Find Your Perfect Seats" |}
  else {| title := "Comprehensive Fan Guide";
          format := "Detailed FAQ with local tips";
          cta := "Get Tickets" |}.

(** [getLLMStrategy(keyword)] *)
Definition getLLMStrategy (keyword : string) : string :=
  if Js.includes keyword "first time" || Js.includes keyword "what to expect"
  then "Create conversational Q&A content optimized for voice search and AI assistants"
  else if Js.includes keyword "parking" || Js.includes keyword "seating"
  then "Use structured data and local context for location-based AI search"
  else "Optimize with natural language and hockey-specific terminology for AI search".

(** [getSimulatedCompetitors(keyword)] *)
Definition getSimulatedCompetitors (keyword : string) : list string :=
  if Js.includes keyword "tickets"
  then ["stubhub.com"; "ticketmaster.com"; "seatgeek.com"]
  else if Js.includes keyword "parking"
  then ["spothero.com"; "parkwhiz.com"; "yelp.com"]
  else if Js.includes keyword "first time"
  then ["reddit.com"; "tripadvisor.com"; "hockeyforum.com"]
  else ["reddit.com"; "yelp.com"; "hockeydb.com"].

(* ================================================================== *)
(** ** The provider's data and the outside world *)

(** What the provider's JSON carries, as far as the program reads it. *)
Module Api.

Record Item := { domain : option string }.

Record SerpData := {
  items : option (list (option Item));
  cost : option Q
}.

Record Task := {
  id : option string;
  result : option (list (option SerpData))
}.

Record Body := {
  status_code : option Z;
  status_message : option string;
  tasks : option (list (option Task))
}.

Inductive Method := GET | POST.

Record TaskPost := {
  keyword : Js.value;
  location_code : Z;
  language_code : string;
  device : string
}.

Record Request := {
  url : string;
  method : Method;
  body : option (list TaskPost)
}.

(** A response of [fetch]; [json] is [None] when the body does not parse
    or is [null]. *)
Record Response := {
  ok : bool;
  status : Z;
  statusText : string;
  json : option Body
}.

Inductive FetchOutcome :=
| Rejected (message : string)
| Responded (response : Response).

End Api.

(** The world: the draws [Math.random] is still to return and the replies
    [fetch] is still to get, each in the order of the calls. *)
Record World := {
  draws : nat -> Q;
  replies : nat -> Api.Request -> Api.FetchOutcome
}.

Inductive Result (A : Type) :=
| Ok (value : A)
| Thrown (message : string).
Arguments Ok {A} value.
Arguments Thrown {A} message.

(** A computation: it reads and advances the world, and returns or throws. *)
Definition M (A : Type) : Type := World -> Result A * World.

Definition ret {A} (a : A) : M A := fun w => (Ok a, w).

Definition throw {A} (message : string) : M A := fun w => (Thrown message, w).

Definition bind {A B} (c : M A) (k : A -> M B) : M B :=
  fun w =>
    match c w with
    | (Ok a, w') => k a w'
    | (Thrown e, w') => (Thrown e, w')
    end.

(** [try { c } catch (error) { handler(error) }] *)
Definition tryCatch {A} (c : M A) (handler : string -> M A) : M A :=
  fun w =>
    match c w with
    | (Ok a, w') => (Ok a, w')
    | (Thrown e, w') => handler e w'
    end.

Notation "x <- c ;; k" := (bind c (fun x => k))
  (at level 61, c at next level, right associativity).

Fixpoint mapM {A B} (f : A -> M B) (l : list A) : M (list B) :=
  match l with
  | [] => ret []
  | x :: l' => y <- f x ;; ys <- mapM f l' ;; ret (y :: ys)
  end.

(** [Math.random()] *)
Definition random : M Q :=
  fun w =>
    (Ok (draws w 0%nat),
     {| draws := fun n => draws w (S n); replies := replies w |}).

(** [await fetch(url, options)] *)
Definition fetch (req : Api.Request) : M Api.Response :=
  fun w =>
    let w' := {| draws := draws w; replies := fun n => replies w (S n) |} in
    match replies w 0%nat req with
    | Api.Rejected e => (Thrown e, w')
    | Api.Responded r => (Ok r, w')
    end.

(** [await response.json()] *)
Definition responseJson (response : Api.Response) : M Api.Body :=
  match Api.json response with
  | Some b => ret b
  | None => throw "invalid json response body"
  end.

(* ================================================================== *)
(** ** The provider client *)

Record Config := {
  baseUrl : string;
  login : option string;
  password : option string
}.

(** [makeDataForSEORequest(endpoint, data, method)].  The headers of the
    request, the same on every call, are left out; the function logs the
    error it catches and throws it again. *)
Definition makeDataForSEORequest (cfg : Config)
    (endpoint : string) (data : list Api.TaskPost) (method : Api.Method)
  : M Api.Body :=
  tryCatch
    (let url := baseUrl cfg ++ endpoint in
     response <- fetch {| Api.url := url;
                          Api.method := method;
                          Api.body := match method with
                                      | Api.POST => Some data
                                      | Api.GET => None
                                      end |} ;;
     if negb (Api.ok response)
     then throw ("DataForSEO API error: "
                 ++ Js.numberToString (Api.status response) ++ " "
                 ++ Api.statusText response)
     else
       result <- responseJson response ;;
       if negb (Js.strictEqualsNumber (Api.status_code result) 20000)
       then throw ("DataForSEO error: "
                   ++ Js.template (Api.status_message result) ++ " ("
                   ++ Js.template (option_map Js.numberToString
                                     (Api.status_code result)) ++ ")")
       else ret result)
    (fun error => throw error).

(** [getRealSERPData(keyword)]; the five seconds between the two calls are
    not part of the model.  The keyword goes into the request as it is,
    string or not. *)
Definition getRealSERPData (cfg : Config) (keyword : Js.value)
  : M (option Api.SerpData) :=
  tryCatch
    (let taskData := [ {| Api.keyword := keyword;
                          Api.location_code := 2840;
                          Api.language_code := "en";
                          Api.device := "desktop" |} ] in
     taskResult <- makeDataForSEORequest cfg
                     "/serp/google/organic/task_post" taskData Api.POST ;;
     match Api.tasks taskResult with
     | Some (Some task :: _) =>
         if Js.truthy (Api.id task) then
           let taskId := match Api.id task with Some i => i | None => "" end in
           resultsData <- makeDataForSEORequest cfg
                            ("/serp/google/organic/task_get/" ++ taskId)
                            [] Api.GET ;;
           match Api.tasks resultsData with
           | Some (Some task' :: _) =>
               match Api.result task' with
               | Some (first :: _) => ret first
               | Some [] => ret None
               | None => ret None
               end
           | _ => ret None
           end
         else ret None
     | _ => ret None
     end)
    (fun error => ret None).

(* ================================================================== *)
(** ** The simulation fallback *)

(** [generateSimulatedSearchVolume(keyword)] *)
Definition generateSimulatedSearchVolume (keyword : string) : M Z :=
  if Js.includes keyword "tickets" || Js.includes keyword "cheap"
  then r <- random ;; ret (Js.floor (r * 800) + 200)
  else if Js.includes keyword "first time" || Js.includes keyword "what to expect"
  then r <- random ;; ret (Js.floor (r * 400) + 150)
  else if Js.includes keyword "parking"
  then r <- random ;; ret (Js.floor (r * 300) + 100)
  else r <- random ;; ret (Js.floor (r * 200) + 50).

Record Analysis := {
  keyword : string;
  opportunity : Z;
  gapType : string;
  teamRank : string;
  competitors : list string;
  contentSuggestion : ContentSuggestion;
  llmStrategy : string;
  searchVolume : Z;
  isRealData : bool;
  cost : Q
}.

(** [teamRank === -1 ? 'Not found' : `#${teamRank}`] *)
Definition renderTeamRank (teamRank : Z) : string :=
  if teamRank =? -1 then "Not found" else "#" ++ Js.numberToString teamRank.

(** The team rank of [createSimulatedAnalysis]:
    [Math.random() > 0.6 ? -1 : Math.floor(Math.random() * 10) + 1],
    the product taken exactly. *)
Definition simulatedTeamRank : M Z :=
  r <- random ;;
  if negb (Qle_bool r (3 # 5)) then ret (-1)
  else r' <- random ;; ret (Js.floor (r' * 10) + 1).

(** [createSimulatedAnalysis(keyword, teamName)] *)
Definition createSimulatedAnalysis (keyword teamName : string) : M Analysis :=
  let competitors := getSimulatedCompetitors keyword in
  teamRank <- simulatedTeamRank ;;
  volume <- generateSimulatedSearchVolume keyword ;;
  ret {| keyword := keyword;
         opportunity := calculateOpportunityScore keyword teamRank competitors;
         gapType := getGapType keyword competitors;
         teamRank := renderTeamRank teamRank;
         competitors := Js.slice0 3 competitors;
         contentSuggestion := getContentSuggestion keyword;
         llmStrategy := getLLMStrategy keyword;
         searchVolume := volume;
         isRealData := false;
         cost := 0 |}.

(* ================================================================== *)
(** ** The orchestrator: [POST /api/analyze] *)

(** [item.domain]; reading a property of [null] throws. *)
Definition itemDomain (item : option Api.Item) : M (option string) :=
  match item with
  | Some it => ret (Api.domain it)
  | None => throw "Cannot read properties of null (reading 'domain')"
  end.

(** [.filter(Boolean)] on the domains. *)
Fixpoint filterBoolean (l : list (option string)) : list string :=
  match l with
  | [] => []
  | d :: l' =>
      if Js.truthy d
      then match d with
           | Some s => s :: filterBoolean l'
           | None => filterBoolean l'
           end
      else filterBoolean l'
  end.

(** The body of
    [items.forEach((item, index) => { if (item.domain && isTeamSite(item.domain, teamName)) teamRank = index + 1; })]
    from [index] on, with the current value of the variable [teamRank]. *)
Fixpoint forEachItem (teamName : string) (items : list (option Api.Item))
    (index : Z) (teamRank : Z) : M Z :=
  match items with
  | [] => ret teamRank
  | item :: rest =>
      d <- itemDomain item ;;
      let teamRank :=
        if Js.truthy d && isTeamSite d teamName then index + 1 else teamRank in
      forEachItem teamName rest (index + 1) teamRank
  end.

(** [let teamRank = -1; items.forEach(...)] *)
Definition findTeamRank (teamName : string) (items : list (option Api.Item))
  : M Z :=
  forEachItem teamName items 0 (-1).

(** [serpData.cost || 0] *)
Definition costOrZero (c : option Q) : Q :=
  match c with
  | Some q => if Qeq_bool q 0 then 0 else q
  | None => 0
  end.

(** The branch [if (serpData && serpData.items) { ... }] of the handler. *)
Definition realAnalysis (keyword teamName : string)
    (serpData : Api.SerpData) (items : list (option Api.Item)) : M Analysis :=
  domains <- mapM itemDomain (Js.slice0 3 items) ;;
  let competitors := filterBoolean domains in
  teamRank <- findTeamRank teamName items ;;
  let score := calculateOpportunityScore keyword teamRank competitors in
  volume <- generateSimulatedSearchVolume keyword ;;
  ret {| keyword := keyword;
         opportunity := score;
         gapType := getGapType keyword competitors;
         teamRank := renderTeamRank teamRank;
         competitors := Js.slice0 3 competitors;
         contentSuggestion := getContentSuggestion keyword;
         llmStrategy := getLLMStrategy keyword;
         searchVolume := volume;
         isRealData := true;
         cost := costOrZero (Api.cost serpData) |}.

Definition maxRealAnalyses : nat := 3.

Definition hasCredentials (cfg : Config) : bool :=
  Js.truthy (login cfg) && Js.truthy (password cfg).

(** The inner [try { ... } catch (error) { analysis = createSimulatedAnalysis(...) }]. *)
Definition tryRealAnalysis (cfg : Config) (keyword teamName : string)
  : M Analysis :=
  tryCatch
    (serpData <- getRealSERPData cfg keyword ;;
     match serpData with
     | Some sd =>
         match Api.items sd with
         | Some items => realAnalysis keyword teamName sd items
         | None => throw "No SERP data returned"
         end
     | None => throw "No SERP data returned"
     end)
    (fun error => createSimulatedAnalysis keyword teamName).

(** One turn of the loop when [keywords[i]] is the string [keyword]: its
    record. *)
Definition analyzeKeyword (cfg : Config) (teamName : string)
    (i : nat) (keyword : string) : M Analysis :=
  if (i <? maxRealAnalyses)%nat && hasCredentials cfg
  then tryRealAnalysis cfg keyword teamName
  else createSimulatedAnalysis keyword teamName.

(** [keyword.includes(...)] on a value that is no string throws a
    [TypeError]; its message. *)
Definition includesTypeError (element : Js.value) : string :=
  match element with
  | Js.Null => "Cannot read properties of null (reading 'includes')"
  | _ => "keyword.includes is not a function"
  end.

(** One turn of the loop for any [keywords[i]].  A string goes through
    [analyzeKeyword].  For any other value every path ends in a call of
    [keyword.includes] that throws: on the real path in
    [calculateOpportunityScore], after the provider was called and the items
    were read and before any draw, inside the inner [try]; and in
    [createSimulatedAnalysis] at once, in [getSimulatedCompetitors], outside
    of it. *)
Definition analyzeElement (cfg : Config) (teamName : string)
    (i : nat) (element : Js.value) : M Analysis :=
  match element with
  | Js.Str keyword => analyzeKeyword cfg teamName i keyword
  | _ =>
      let createSimulatedAnalysis' : M Analysis :=
        throw (includesTypeError element) in
      if (i <? maxRealAnalyses)%nat && hasCredentials cfg
      then
        tryCatch
          (serpData <- getRealSERPData cfg element ;;
           match serpData with
           | Some sd =>
               match Api.items sd with
               | Some items =>
                   domains <- mapM itemDomain (Js.slice0 3 items) ;;
                   teamRank <- findTeamRank teamName items ;;
                   throw (includesTypeError element)
               | None => throw "No SERP data returned"
               end
           | None => throw "No SERP data returned"
           end)
          (fun error => createSimulatedAnalysis')
      else createSimulatedAnalysis'
  end.

(** [keywords[i]], inside the bounds of the array. *)
Definition elementAt (keywords : list Js.value) (i : nat) : Js.value :=
  nth i keywords Js.Null.

(** [for (let i = 0; i < Math.min(5, keywords.length); i++) { ...; analyses.push(analysis); }]
    with [steps] turns left, from index [i]. *)
Fixpoint elementLoop (cfg : Config) (teamName : string)
    (keywords : list Js.value)
    (steps : nat) (i : nat) (analyses : list Analysis) : M (list Analysis) :=
  match steps with
  | O => ret analyses
  | S steps' =>
      analysis <- analyzeElement cfg teamName i (elementAt keywords i) ;;
      elementLoop cfg teamName keywords steps' (S i) (analyses ++ [analysis])
  end.

Definition processElements (cfg : Config) (teamName : string)
    (keywords : list Js.value) : M (list Analysis) :=
  elementLoop cfg teamName keywords (Nat.min 5 (List.length keywords)) 0 [].

(** [keywords[i]] of an array of strings, inside its bounds. *)
Definition keywordAt (keywords : list string) (i : nat) : string :=
  nth i keywords "".

(** The same loop on an array of strings: every turn is [analyzeKeyword]. *)
Fixpoint keywordLoop (cfg : Config) (teamName : string) (keywords : list string)
    (steps : nat) (i : nat) (analyses : list Analysis) : M (list Analysis) :=
  match steps with
  | O => ret analyses
  | S steps' =>
      analysis <- analyzeKeyword cfg teamName i (keywordAt keywords i) ;;
      keywordLoop cfg teamName keywords steps' (S i) (analyses ++ [analysis])
  end.

Definition processKeywords (cfg : Config) (teamName : string)
    (keywords : list string) : M (list Analysis) :=
  keywordLoop cfg teamName keywords (Nat.min 5 (List.length keywords)) 0 [].

(** [(a, b) => b.opportunity - a.opportunity] *)
Definition byOpportunity (a b : Analysis) : Z := opportunity b - opportunity a.

Record Summary := {
  highOpportunity : nat;
  totalSearchVolume : Z;
  realDataCount : nat
}.

(** The [summary] object of the response. *)
Definition summarize (analyses : list Analysis) : Summary :=
  {| highOpportunity :=
       List.length (filter (fun a => 7 <=? opportunity a) analyses);
     totalSearchVolume :=
       fold_left (fun sum a => sum + searchVolume a) analyses 0;
     realDataCount :=
       List.length (filter (fun a => isRealData a) analyses) |}.

(** The body of a request, as far as the handler reads it; [keywords] is
    [None] when the field is missing or is not an array, and the elements of
    the array need not be strings. *)
Module Req.
Record Body := {
  teamName : option string;
  league : option string;
  keywords : option (list Js.value)
}.
End Req.

Record AnalysisResponse := {
  success : bool;
  teamName : string;
  league : option string;
  totalKeywords : nat;
  analyses : list Analysis;
  summary : Summary
}.

Inductive Reply :=
| Status200 (response : AnalysisResponse)
| Status400 (error : string)
| Status500 (error message : string).

(** The handler of [POST /api/analyze]. *)
Definition analyze (cfg : Config) (req : Req.Body) : M Reply :=
  tryCatch
    (match Req.teamName req, Req.keywords req with
     | Some (String c t), Some keywords =>
         let teamName := String c t in
         analyses <- processElements cfg teamName keywords ;;
         let analyses := Js.sort byOpportunity analyses in
         ret (Status200
                {| success := true;
                   teamName := teamName;
                   league := Req.league req;
                   totalKeywords := List.length keywords;
                   analyses := analyses;
                   summary := summarize analyses |})
     | _, _ =>
         ret (Status400 "Missing required fields: teamName and keywords array")
     end)
    (fun error => ret (Status500 "Analysis failed" error)).

(* ================================================================== *)
(** ** Vocabulary of the properties *)

(** [t] occurs in [s]. *)
Definition Contains (s t : string) : Prop :=
  exists pre post, s = pre ++ t ++ post.

(** The keyword is a first-timer keyword. *)
Definition FirstTimer (keyword : string) : Prop :=
  Contains keyword "first time" \/ Contains keyword "what to expect".

(** [b] is [amount] when [P] holds and [0] otherwise. *)
Definition Bonus (amount : Z) (P : Prop) (b : Z) : Prop :=
  (P /\ b = amount) \/ (~ P /\ b = 0).

(** The rank adjustment of the scorer, case by case. *)
Definition RankAdjustment (rank adj : Z) : Prop :=
  (rank = -1 /\ adj = 3) \/
  (rank <> -1 /\ 10 < rank /\ adj = 2) \/
  (6 <= rank <= 10 /\ adj = 1) \/
  (rank <> -1 /\ rank <= 3 /\ adj = -1) \/
  (4 <= rank <= 5 /\ adj = 0).


(** Some competitor is one of the three resale sites of the classifier. *)
Definition ResellerAmong (competitors : list string) : Prop :=
  exists c, In c competitors /\
            (c = "ticketmaster.com" \/ c = "stubhub.com" \/ c = "seatgeek.com").

(** Some competitor has one of the four resale sites of the scorer inside it. *)
Definition ResellerInside (competitors : list string) : Prop :=
  exists c r, In c competitors /\ In r ticketResellers /\ Contains c r.

(** What a computation returned, if it returned. *)
Definition returned {A} (r : Result A * World) : option A :=
  match fst r with
  | Ok a => Some a
  | Thrown _ => None
  end.

(** The position of the first item that the matcher accepts, counted from
    [index + 1], or [-1]: the team rank as the specification words it. *)
Fixpoint firstMatchRank (teamName : string) (items : list Api.Item)
    (index : Z) : Z :=
  match items with
  | [] => -1
  | item :: rest =>
      if isTeamSite (Api.domain item) teamName then index + 1
      else firstMatchRank teamName rest (index + 1)
  end.

(** The value the variable [teamRank] holds after the loop over items none
    of which is [null]. *)
Fixpoint rankAfter (teamName : string) (items : list Api.Item)
    (index : Z) (teamRank : Z) : Z :=
  match items with
  | [] => teamRank
  | item :: rest =>
      rankAfter teamName rest (index + 1)
        (if isTeamSite (Api.domain item) teamName then index + 1 else teamRank)
  end.

(** A world for the examples: the provider is unreachable and every draw
    is [1/2]. *)
Definition offlineWorld : World :=
  {| draws := fun _ => 1 # 2;
     replies := fun _ _ => Api.Rejected "network unreachable" |}.

Definition site (d : string) : Api.Item := {| Api.domain := Some d |}.

(** Three result items, the team's sites first and last. *)
Definition bruinsItems : list Api.Item :=
  [site "bruins.com"; site "espn.com"; site "bostonbruins.com"].

(** A world for the examples: the provider accepts every job and answers
    every retrieval with [bruinsItems]; every draw is [1/2]. *)
Definition onlineWorld : World :=
  {| draws := fun _ => 1 # 2;
     replies := fun _ _ =>
       Api.Responded
         {| Api.ok := true;
            Api.status := 200;
            Api.statusText := "OK";
            Api.json :=
              Some {| Api.status_code := Some 20000;
                      Api.status_message := Some "Ok.";
                      Api.tasks :=
                        Some [Some {| Api.id := Some "07131248-1535-0066";
                                      Api.result :=
                                        Some [Some {| Api.items :=
                                                        Some (map Some bruinsItems);
                                                      Api.cost := Some (3 # 5000) |}]
                                   |}] |} |} |}.

(** [DATAFORSEO_CONFIG], from the two environment variables. *)
Definition DATAFORSEO_CONFIG (envLogin envPassword : option string) : Config :=
  {| baseUrl := "https://api.dataforseo.com/v3";
     login := envLogin;
     password := envPassword |}.

Definition configured : Config :=
  DATAFORSEO_CONFIG (Some "login@example.com") (Some "secret").

(** Every draw of the world is in [[0, 1)], as [Math.random] promises. *)
Definition Fair (w : World) : Prop :=
  forall n, (0 <= draws w n /\ draws w n < 1)%Q.

(** The world [w] with [q] as the next draw. *)
Definition withFirstDraw (q : Q) (w : World) : World :=
  {| draws := fun n => match n with O => q | S m => draws w m end;
     replies := replies w |}.

(** Does the simulated team rank come out as [-1] when the next draw is
    [k/N]? *)
Definition notFoundAt (w : World) (N k : nat) : bool :=
  match returned (simulatedTeamRank
                    (withFirstDraw (Z.of_nat k # Pos.of_nat N) w)) with
  | Some r => r =? -1
  | None => false
  end.

(** Among the [N] equally spaced draws [0, 1/N, ..., (N-1)/N], how many give
    the rank [-1]. *)
Definition notFoundCount (w : World) (N : nat) : nat :=
  List.length (filter (notFoundAt w N) (seq 0 N)).

(** The draws that give [-1] have measure [num/den]: on every grid of [N]
    equally spaced draws their share is within [1/N] of [num/den]. *)
Definition NotFoundMeasure (num den : Z) : Prop :=
  forall w, Fair w ->
  forall N, (0 < N)%nat ->
    Z.abs (den * Z.of_nat (notFoundCount w N) - num * Z.of_nat N) <= den.

(** The request that submits the job for [keyword]. *)
Definition submitRequest (cfg : Config) (keyword : string) : Api.Request :=
  {| Api.url := baseUrl cfg ++ "/serp/google/organic/task_post";
     Api.method := Api.POST;
     Api.body := Some [ {| Api.keyword := keyword;
                           Api.location_code := 2840;
                           Api.language_code := "en";
                           Api.device := "desktop" |} ] |}.

(** The request that retrieves the results of the job [taskId]. *)
Definition retrieveRequest (cfg : Config) (taskId : string) : Api.Request :=
  {| Api.url := baseUrl cfg ++ ("/serp/google/organic/task_get/" ++ taskId);
     Api.method := Api.GET;
     Api.body := None |}.

(** The world after one call of [fetch]. *)
Definition afterFetch (w : World) : World :=
  {| draws := draws w; replies := fun n => replies w (S n) |}.

(** The body of a reply that counts as a success: it arrived, its HTTP
    status is a success, it parses, and its [status_code] is 20000. *)
Definition acceptedBody (o : Api.FetchOutcome) : option Api.Body :=
  match o with
  | Api.Rejected _ => None
  | Api.Responded r =>
      if Api.ok r then
        match Api.json r with
        | Some b =>
            match Api.status_code b with
            | Some code => if code =? 20000 then Some b else None
            | None => None
            end
        | None => None
        end
      else None
  end.

(** The identifier of the accepted job, if the provider accepted it. *)
Definition jobId (b : Api.Body) : option string :=
  match Api.tasks b with
  | Some (Some task :: _) => if Js.truthy (Api.id task) then Api.id task else None
  | _ => None
  end.

(** The first result set of a retrieval, if there is one. *)
Definition firstResult (b : Api.Body) : option Api.SerpData :=
  match Api.tasks b with
  | Some (Some task :: _) =>
      match Api.result task with
      | Some (first :: _) => first
      | _ => None
      end
  | _ => None
  end.

(** The provider gave nothing the real path can use: no result, a result
    without an item list, or an item list with a [null] in it. *)
Definition NoData (r : option Api.SerpData) : Prop :=
  r = None \/
  exists serpData, r = Some serpData /\
    (Api.items serpData = None \/
     exists items, Api.items serpData = Some items /\ In None items).

(** A record of the real path for [keyword]. *)
Definition RealRecord (keyword' : string) (a : Analysis) : Prop :=
  keyword a = keyword' /\ isRealData a = true.

(** A record of the simulation for [keyword], every field accounted for. *)
Definition SimulatedRecord (keyword' : string) (a : Analysis) : Prop :=
  exists rank volume : Z,
    a = {| keyword := keyword';
           opportunity :=
             calculateOpportunityScore keyword' rank (getSimulatedCompetitors keyword');
           gapType := getGapType keyword' (getSimulatedCompetitors keyword');
           teamRank := renderTeamRank rank;
           competitors := getSimulatedCompetitors keyword';
           contentSuggestion := getContentSuggestion keyword';
           llmStrategy := getLLMStrategy keyword';
           searchVolume := volume;
           isRealData := false;
           cost := 0 |}.

(** A request that passes the validation, with strings for keywords: a team
    name that is not empty and an array of keywords. *)
Definition validRequest (c : ascii) (t : string) (league' : option string)
    (keywords' : list string) : Req.Body :=
  {| Req.teamName := Some (String c t);
     Req.league := league';
     Req.keywords := Some (map Js.Str keywords') |}.


(** The step of the grid of doubles below 1, [2^-53]: the product of a draw
    and a small integer, which the machine rounds to the nearest double, is
    off by less than this times the integer. *)
Definition doubleStep : Q := 1 # 9007199254740992.

(** The records are in descending order of [opportunity]: every record has
    at least the opportunity of every record after it. *)
Definition Descending (l : list Analysis) : Prop :=
  StronglySorted (fun a b => opportunity b <= opportunity a) l.

(** The records of [l] with the opportunity [v], in their order. *)
Definition withOpportunity (v : Z) (l : list Analysis) : list Analysis :=
  filter (fun a => opportunity a =? v) l.

(** The sum of [f] over the records. *)
Definition total (f : Analysis -> Z) (l : list Analysis) : Z :=
  fold_right (fun a s => f a + s) 0 l.

(** The number of records that satisfy [P]. *)
Definition countWhere (P : Analysis -> Prop) (dec : forall a, {P a} + {~ P a})
    (l : list Analysis) : nat :=
  fold_right (fun a n => if dec a then S n else n) 0%nat l.

Definition highOpportunity_dec (a : Analysis) :
  {7 <= opportunity a} + {~ 7 <= opportunity a} :=
  Z_le_dec 7 (opportunity a).

Definition isRealData_dec (a : Analysis) :
  {isRealData a = true} + {~ isRealData a = true} :=
  bool_dec (isRealData a) true.

(** Five keywords for the examples. *)
Definition fiveKeywords : list string :=
  ["bruins tickets"; "bruins parking"; "first time at td garden";
   "td garden seating"; "bruins schedule"].

(** The world after one call of [Math.random]. *)
Definition afterDraw (w : World) : World :=
  {| draws := fun n => draws w (S n); replies := replies w |}.

(** [w'] is [w] after [kd] draws and [kf] calls of [fetch]. *)
Definition Later (kd kf : nat) (w w' : World) : Prop :=
  (forall n, draws w' n = draws w (n + kd)%nat) /\
  (forall n req, replies w' n req = replies w (n + kf)%nat req).

(** The derived fields of a record fit its keyword, a team rank and the
    competitors it lists; it lists at most three competitors, none empty. *)
Definition Coherent (a : Analysis) : Prop :=
  (exists rank,
      opportunity a = calculateOpportunityScore (keyword a) rank (competitors a) /\
      teamRank a = renderTeamRank rank) /\
  gapType a = getGapType (keyword a) (competitors a) /\
  contentSuggestion a = getContentSuggestion (keyword a) /\
  llmStrategy a = getLLMStrategy (keyword a) /\
  (List.length (competitors a) <= 3)%nat /\
  Forall (fun c => c <> "") (competitors a).


(* ================================================================== *)
(** ** Strings *)

(** A boolean test that decides [P] is [true] with [P] or [false] with
    [~ P]. *)
Lemma bool_cases (b : bool) (P : Prop) :
  (b = true <-> P) -> (b = true /\ P) \/ (b = false /\ ~ P).
Proof.
  intros H. destruct b.
  - left. split; [reflexivity | now apply H].
  - right. split; [reflexivity | intros HP; apply H in HP; discriminate].
Qed.

Lemma startsWith_spec (s t : string) :
  Js.startsWith s t = true <-> exists post, s = t ++ post.
Proof.
  revert s; induction t as [|b t IH]; intros s.
  - split; [intros _; now exists s | intros _; destruct s; reflexivity].
  - destruct s as [|a s]; simpl.
    + split; [discriminate | intros [post H]; discriminate].
    + rewrite andb_true_iff, Ascii.eqb_eq, IH. split.
      * intros [-> [post ->]]. now exists post.
      * intros [post H]. injection H as -> ->. split; [reflexivity | now exists post].
Qed.

Lemma includes_spec (s t : string) :
  Js.includes s t = true <-> Contains s t.
Proof.
  unfold Contains. induction s as [|a s IH]; cbn [Js.includes].
  - rewrite orb_false_r, startsWith_spec. split.
    + intros [post H]. now exists "", post.
    + intros [pre [post H]]. destruct pre; [now exists post | discriminate].
  - rewrite orb_true_iff, startsWith_spec, IH. split.
    + intros [[post H] | [pre [post H]]].
      * now exists "", post.
      * exists (String a pre), post. simpl. now rewrite H.
    + intros [pre [post H]]. destruct pre as [|c pre]; simpl in H.
      * left. now exists post.
      * right. injection H as -> ->. now exists pre, post.
Qed.

Lemma includes_false (s t : string) :
  Js.includes s t = false <-> ~ Contains s t.
Proof.
  rewrite <- includes_spec. destruct (Js.includes s t); split; congruence.
Qed.

Lemma includes_empty (s : string) : Js.includes s "" = true.
Proof. destruct s; reflexivity. Qed.

Lemma firstTimer_spec (keyword : string) :
  Js.includes keyword "first time" || Js.includes keyword "what to expect" = true
  <-> FirstTimer keyword.
Proof. unfold FirstTimer. now rewrite orb_true_iff, !includes_spec. Qed.

Lemma firstTimer_false (keyword : string) :
  Js.includes keyword "first time" || Js.includes keyword "what to expect" = false
  <-> ~ FirstTimer keyword.
Proof.
  rewrite <- firstTimer_spec.
  destruct (Js.includes keyword "first time" || Js.includes keyword "what to expect");
    split; congruence.
Qed.

Lemma lowerChar_space (c : ascii) :
  Ascii.eqb (Js.lowerChar c) " " = Ascii.eqb c " ".
Proof. destruct c as [[] [] [] [] [] [] [] []]; reflexivity. Qed.

Lemma toLowerCase_empty (s : string) : Js.toLowerCase s = "" <-> s = "".
Proof. destruct s; simpl; split; congruence. Qed.

Lemma split_toLowerCase (s : string) :
  Js.split " " (Js.toLowerCase s) = map Js.toLowerCase (Js.split " " s).
Proof.
  induction s as [|c s IH]; simpl; [reflexivity|].
  rewrite lowerChar_space, IH.
  destruct (Ascii.eqb c " "); [reflexivity|].
  destruct (Js.split " " s); reflexivity.
Qed.

Lemma empty_word_toLowerCase (s : string) :
  In "" (Js.split " " (Js.toLowerCase s)) <-> In "" (Js.split " " s).
Proof.
  rewrite split_toLowerCase, in_map_iff. split.
  - intros [w [Hw Hin]]. apply (proj1 (toLowerCase_empty w)) in Hw. now subst.
  - intros Hin. now exists "".
Qed.

(** A space in front gives an empty first word. *)
Lemma split_leading_space (s : string) :
  In "" (Js.split " " (String " " s)).
Proof. simpl. now left. Qed.

(** A space at the end, or two spaces in a row, give an empty word after the
    first one. *)
Lemma split_space_then (pre post : string) :
  post = "" \/ (exists post', post = String " " post') ->
  In "" (tl (Js.split " " (pre ++ String " " post))).
Proof.
  intros Hpost. induction pre as [|c pre IH]; simpl.
  - destruct Hpost as [-> | [post' ->]]; simpl; now left.
  - destruct (Ascii.eqb c " "); simpl.
    + destruct (Js.split " " (pre ++ String " " post)); simpl in *; tauto.
    + destruct (Js.split " " (pre ++ String " " post)); simpl in *; tauto.
Qed.

Lemma split_trailing_space (pre : string) :
  In "" (Js.split " " (pre ++ " ")).
Proof.
  pose proof (split_space_then pre "" (or_introl eq_refl)) as H.
  destruct (Js.split " " (pre ++ " ")); simpl in H; [contradiction | now right].
Qed.

Lemma split_doubled_space (pre post : string) :
  In "" (Js.split " " (pre ++ "  " ++ post)).
Proof.
  pose proof (split_space_then pre (String " " post)
                (or_intror (ex_intro _ post eq_refl))) as H.
  simpl. destruct (Js.split " " (pre ++ String " " (String " " post)));
    simpl in H; [contradiction | now right].
Qed.

(* ================================================================== *)
(** ** The Team-Site Matcher *)

(** C10.  When splitting the team name on single spaces gives an empty word,
    [isTeamSite] answers [true] on every non-empty domain, since the empty
    word occurs in every string; an empty or absent domain is still not a
    match. *)
Theorem C10_empty_team_word_matches_every_domain (teamName : string) :
  In "" (Js.split " " teamName) ->
  (forall domain, domain <> "" -> isTeamSite (Some domain) teamName = true) /\
  isTeamSite (Some "") teamName = false /\
  isTeamSite None teamName = false.
Proof.
  intros Hin. split; [|split; reflexivity].
  intros domain Hne. destruct domain as [|c d]; [congruence|].
  unfold isTeamSite, Js.some. apply existsb_exists.
  exists "". split.
  - now apply empty_word_toLowerCase.
  - apply includes_empty.
Qed.

Lemma C10_witness :
  In "" (Js.split " " "Boston  Bruins") /\
  (forall domain, domain <> "" -> isTeamSite (Some domain) "Boston  Bruins" = true) /\
  isTeamSite (Some "") "Boston  Bruins" = false /\
  isTeamSite None "Boston  Bruins" = false.
Proof.
  split.
  - simpl. tauto.
  - apply (C10_empty_team_word_matches_every_domain "Boston  Bruins").
    simpl. tauto.
Defined.

(* ================================================================== *)
(** ** The Gap & Content Strategist *)

Lemma resellerAmong_spec (competitors : list string) :
  Js.some (fun comp =>
             Js.arrayIncludes
               ["ticketmaster.com"; "stubhub.com"; "seatgeek.com"] comp)
          competitors = true
  <-> ResellerAmong competitors.
Proof.
  unfold Js.some, Js.arrayIncludes, ResellerAmong. rewrite existsb_exists.
  split; intros [c [Hin H]]; exists c; (split; [exact Hin|]).
  - simpl in H. rewrite !orb_true_iff, !String.eqb_eq in H.
    destruct H as [H | [H | [H | H]]]; [auto .. | discriminate].
  - simpl. rewrite !orb_true_iff, !String.eqb_eq. tauto.
Qed.

(** C3.  [getGapType] is the first-match-wins mapping: first-timer keywords,
    then parking keywords, then a competitor equal to one of the three resale
    sites, then seating or arena keywords, then the default.  The second
    clause holds for every competitor list. *)
Theorem C3_gap_type_first_match_wins (keyword : string) (competitors : list string) :
  (FirstTimer keyword ->
   getGapType keyword competitors = "First-Timer Experience Gap") /\
  (~ FirstTimer keyword -> Contains keyword "parking" ->
   getGapType keyword competitors = "Arena Information Gap") /\
  (~ FirstTimer keyword -> ~ Contains keyword "parking" ->
   ResellerAmong competitors ->
   getGapType keyword competitors = "Ticket Reseller Dominance") /\
  (~ FirstTimer keyword -> ~ Contains keyword "parking" ->
   ~ ResellerAmong competitors ->
   Contains keyword "seating" \/ Contains keyword "arena" ->
   getGapType keyword competitors = "Venue Experience Gap") /\
  (~ FirstTimer keyword -> ~ Contains keyword "parking" ->
   ~ ResellerAmong competitors ->
   ~ (Contains keyword "seating" \/ Contains keyword "arena") ->
   getGapType keyword competitors = "General Content Gap").
Proof.
  unfold getGapType.
  pose proof (firstTimer_spec keyword) as Hf.
  pose proof (includes_spec keyword "parking") as Hp.
  pose proof (resellerAmong_spec competitors) as Hr.
  assert (Hv : Js.includes keyword "seating" || Js.includes keyword "arena" = true
               <-> Contains keyword "seating" \/ Contains keyword "arena")
    by now rewrite orb_true_iff, !includes_spec.
  destruct (bool_cases _ _ Hf) as [[-> HF] | [-> HF]];
    [repeat split; intros; first [reflexivity | tauto]|].
  destruct (bool_cases _ _ Hp) as [[-> HP] | [-> HP]];
    [repeat split; intros; first [reflexivity | tauto]|].
  destruct (bool_cases _ _ Hr) as [[-> HR] | [-> HR]];
    [repeat split; intros; first [reflexivity | tauto]|].
  destruct (bool_cases _ _ Hv) as [[-> HV] | [-> HV]];
    repeat split; intros; first [reflexivity | tauto].
Qed.

(** The scenario of the specification: a parking keyword with a resale site
    among the competitors. *)
Example gap_type_parking_before_resellers :
  getGapType "bruins parking" ["stubhub.com"; "ticketmaster.com"]
  = "Arena Information Gap".
Proof. reflexivity. Qed.

(* ================================================================== *)
(** ** The Opportunity Scorer *)

Lemma resellerInside_spec (competitors : list string) :
  Js.some (fun comp =>
             Js.some (fun reseller => Js.includes comp reseller) ticketResellers)
          competitors = true
  <-> ResellerInside competitors.
Proof.
  unfold Js.some, ResellerInside. rewrite existsb_exists. split.
  - intros [c [Hin H]]. apply existsb_exists in H as [r [Hr H]].
    exists c, r. now rewrite <- includes_spec.
  - intros [c [r [Hin [Hr H]]]]. exists c. split; [exact Hin|].
    apply existsb_exists. exists r. now rewrite includes_spec.
Qed.



(** The adjustment is a function of the rank. *)
Lemma rankAdjustment_unique (rank adj adj' : Z) :
  RankAdjustment rank adj -> RankAdjustment rank adj' -> adj = adj'.
Proof. unfold RankAdjustment. lia. Qed.

Lemma bonus_unique (amount : Z) (P : Prop) (b b' : Z) :
  Bonus amount P b -> Bonus amount P b' -> b = b'.
Proof. unfold Bonus. intuition congruence. Qed.


(** The score stays in [[3, 10]]. *)
Lemma opportunity_in_range (keyword : string) (teamRank : Z) (competitors : list string) :
  3 <= calculateOpportunityScore keyword teamRank competitors <= 10.
Proof. unfold calculateOpportunityScore. cbv zeta. lia. Qed.

Example score_first_time_parking_not_found :
  calculateOpportunityScore "first time parking" (-1) ["stubhub.com"] = 10.
Proof. reflexivity. Qed.

Example score_plain_keyword_rank_two :
  calculateOpportunityScore "bruins schedule" 2 ["nhl.com"] = 4.
Proof. reflexivity. Qed.

(* ================================================================== *)
(** ** Running computations *)

Lemma bind_ok {A B} (c : M A) (k : A -> M B) (w w' : World) (a : A) :
  c w = (Ok a, w') -> bind c k w = k a w'.
Proof. unfold bind. now intros ->. Qed.

Lemma bind_thrown {A B} (c : M A) (k : A -> M B) (w w' : World) (e : string) :
  c w = (Thrown e, w') -> bind c k w = (Thrown e, w').
Proof. unfold bind. now intros ->. Qed.

Lemma tryCatch_ok {A} (c : M A) (h : string -> M A) (w w' : World) (a : A) :
  c w = (Ok a, w') -> tryCatch c h w = (Ok a, w').
Proof. unfold tryCatch. now intros ->. Qed.

Lemma tryCatch_thrown {A} (c : M A) (h : string -> M A) (w w' : World) (e : string) :
  c w = (Thrown e, w') -> tryCatch c h w = h e w'.
Proof. unfold tryCatch. now intros ->. Qed.

(** A computation either returns or throws. *)
Lemma run_cases {A} (c : M A) (w : World) :
  (exists a w', c w = (Ok a, w')) \/ (exists e w', c w = (Thrown e, w')).
Proof.
  destruct (c w) as [[a|e] w'] eqn:E; [left | right]; eauto.
Qed.

Lemma searchVolume_returns (keyword : string) (w : World) :
  exists v w', generateSimulatedSearchVolume keyword w = (Ok v, w').
Proof.
  unfold generateSimulatedSearchVolume.
  destruct (_ || _); [|destruct (_ || _); [|destruct (Js.includes _ _)]];
    unfold bind, random, ret; simpl; eauto.
Qed.

(* ================================================================== *)
(** ** The real-data path *)

Lemma isTeamSite_truthy (d : option string) (teamName : string) :
  Js.truthy d && isTeamSite d teamName = isTeamSite d teamName.
Proof. destruct d as [[|c d]|]; reflexivity. Qed.

Lemma forEachItem_present (teamName : string) (items : list Api.Item) :
  forall (index teamRank : Z) (w : World),
    forEachItem teamName (map Some items) index teamRank w
    = (Ok (rankAfter teamName items index teamRank), w).
Proof.
  induction items as [|item rest IH]; intros index teamRank w; simpl.
  - reflexivity.
  - unfold bind, ret. simpl. rewrite isTeamSite_truthy. apply IH.
Qed.

Lemma mapM_itemDomain_present (items : list Api.Item) (w : World) :
  mapM itemDomain (map Some items) w = (Ok (map Api.domain items), w).
Proof.
  induction items as [|item rest IH]; simpl; [reflexivity|].
  unfold bind, ret in *. simpl. now rewrite IH.
Qed.

(** The loop leaves the position of the last accepted item, or the value it
    started with when no item is accepted. *)
Lemma rankAfter_last_match (teamName : string) (items : list Api.Item) :
  forall index teamRank : Z,
    (rankAfter teamName items index teamRank = teamRank /\
     forall item, In item items -> isTeamSite (Api.domain item) teamName = false)
    \/
    (exists i item,
        rankAfter teamName items index teamRank = index + Z.of_nat i + 1 /\
        nth_error items i = Some item /\
        isTeamSite (Api.domain item) teamName = true /\
        forall j item', (i < j)%nat -> nth_error items j = Some item' ->
                        isTeamSite (Api.domain item') teamName = false).
Proof.
  induction items as [|item rest IH]; intros index teamRank; simpl.
  - left. split; [reflexivity | contradiction].
  - destruct (IH (index + 1)
                 (if isTeamSite (Api.domain item) teamName then index + 1 else teamRank))
      as [[Heq Hnone] | [i [item' [Heq [Hnth [Hm Hlater]]]]]].
    + destruct (isTeamSite (Api.domain item) teamName) eqn:Hitem.
      * right. exists 0%nat, item. repeat split; [lia | exact Hitem |].
        intros j item' Hj Hnth. destruct j as [|j]; [lia|]. simpl in Hnth.
        apply Hnone. eapply nth_error_In; eauto.
      * left. split; [exact Heq|]. intros x [<- | Hx]; auto.
    + right. exists (S i), item'. repeat split; [lia | exact Hnth | exact Hm |].
      intros j x Hj Hx. destruct j as [|j]; [lia|]. simpl in Hx.
      apply (Hlater j x); [lia | exact Hx].
Qed.

Lemma realAnalysis_present (keyword teamName : string)
    (serpData : Api.SerpData) (items : list Api.Item) (w : World) :
  exists volume w',
    realAnalysis keyword teamName serpData (map Some items) w
    = (Ok {| keyword := keyword;
             opportunity :=
               calculateOpportunityScore keyword (rankAfter teamName items 0 (-1))
                 (filterBoolean (map Api.domain (firstn 3 items)));
             gapType :=
               getGapType keyword (filterBoolean (map Api.domain (firstn 3 items)));
             teamRank := renderTeamRank (rankAfter teamName items 0 (-1));
             competitors :=
               firstn 3 (filterBoolean (map Api.domain (firstn 3 items)));
             contentSuggestion := getContentSuggestion keyword;
             llmStrategy := getLLMStrategy keyword;
             searchVolume := volume;
             isRealData := true;
             cost := costOrZero (Api.cost serpData) |}, w').
Proof.
  destruct (searchVolume_returns keyword w) as [volume [w' Hv]].
  exists volume, w'. unfold realAnalysis, Js.slice0.
  erewrite bind_ok by (rewrite firstn_map; apply mapM_itemDomain_present).
  erewrite bind_ok by apply forEachItem_present.
  erewrite bind_ok by exact Hv.
  reflexivity.
Qed.

Lemma tryRealAnalysis_real (cfg : Config) (keyword teamName : string)
    (w w1 : World) (serpData : Api.SerpData) (items : list Api.Item) :
  getRealSERPData cfg keyword w = (Ok (Some serpData), w1) ->
  Api.items serpData = Some (map Some items) ->
  tryRealAnalysis cfg keyword teamName w
  = realAnalysis keyword teamName serpData (map Some items) w1.
Proof.
  intros Hget Hitems.
  destruct (realAnalysis_present keyword teamName serpData items w1)
    as [volume [w' Hreal]].
  unfold tryRealAnalysis.
  erewrite tryCatch_ok; [symmetry; exact Hreal|].
  erewrite bind_ok by exact Hget.
  cbv beta iota. rewrite Hitems. exact Hreal.
Qed.

Lemma renderTeamRank_found (i : nat) :
  renderTeamRank (Z.of_nat i + 1) = "#" ++ Js.numberToString (Z.of_nat i + 1).
Proof.
  unfold renderTeamRank. destruct (Z.eqb_spec (Z.of_nat i + 1) (-1)); [lia | reflexivity].
Qed.

(** What the loop over the items leaves in [teamRank].  It has no early
    exit and assigns at every match, so when the provider returns a result
    whose items are all present, the team rank of the record is the position,
    counted from 1, of the last item the Team-Site Matcher accepts, shown as
    [#n]; it is [Not found] when the matcher accepts no item. *)
Theorem team_rank_is_last_match (cfg : Config) (keyword teamName : string)
    (w w1 : World) (serpData : Api.SerpData) (items : list Api.Item) :
  getRealSERPData cfg keyword w = (Ok (Some serpData), w1) ->
  Api.items serpData = Some (map Some items) ->
  exists a w',
    tryRealAnalysis cfg keyword teamName w = (Ok a, w') /\
    isRealData a = true /\
    ((teamRank a = "Not found" /\
      forall item, In item items -> isTeamSite (Api.domain item) teamName = false)
     \/
     (exists i item,
         teamRank a = "#" ++ Js.numberToString (Z.of_nat i + 1) /\
         nth_error items i = Some item /\
         isTeamSite (Api.domain item) teamName = true /\
         forall j item', (i < j)%nat -> nth_error items j = Some item' ->
                         isTeamSite (Api.domain item') teamName = false)).
Proof.
  intros Hget Hitems.
  rewrite (tryRealAnalysis_real cfg keyword teamName w w1 serpData items Hget Hitems).
  destruct (realAnalysis_present keyword teamName serpData items w1)
    as [volume [w' ->]].
  eexists _, w'. split; [reflexivity|]. split; [reflexivity|]. cbn [teamRank].
  destruct (rankAfter_last_match teamName items 0 (-1))
    as [[-> Hnone] | [i [item [-> [Hnth [Hm Hlater]]]]]].
  - left. split; [reflexivity | exact Hnone].
  - right. exists i, item. split; [apply renderTeamRank_found|].
    repeat split; assumption.
Qed.

Lemma online_getRealSERPData (keyword : string) :
  exists w1,
    getRealSERPData configured keyword onlineWorld
    = (Ok (Some {| Api.items := Some (map Some bruinsItems);
                   Api.cost := Some (3 # 5000) |}), w1).
Proof. eexists. reflexivity. Qed.

Lemma team_rank_is_last_match_example :
  exists a w',
    tryRealAnalysis configured "bruins tickets" "Boston Bruins" onlineWorld
    = (Ok a, w') /\
    isRealData a = true /\
    ((teamRank a = "Not found" /\
      forall item, In item bruinsItems ->
                   isTeamSite (Api.domain item) "Boston Bruins" = false)
     \/
     (exists i item,
         teamRank a = "#" ++ Js.numberToString (Z.of_nat i + 1) /\
         nth_error bruinsItems i = Some item /\
         isTeamSite (Api.domain item) "Boston Bruins" = true /\
         forall j item', (i < j)%nat -> nth_error bruinsItems j = Some item' ->
                         isTeamSite (Api.domain item') "Boston Bruins" = false)).
Proof.
  destruct (online_getRealSERPData "bruins tickets") as [w1 Hget].
  exact (team_rank_is_last_match configured "bruins tickets" "Boston Bruins"
           onlineWorld w1 _ bruinsItems Hget eq_refl).
Defined.

(** C1.  The team rank is to be the position of the first item that the
    Team-Site Matcher accepts, and the code does not give it when the matcher
    accepts more than one item.  With the items [bruins.com], [espn.com],
    [bostonbruins.com] for the team "Boston Bruins" the first match is at
    position 1, which reads [#1]; the record of the real-data path says
    [#3]. *)
Theorem C1_first_match_not_reported :
  firstMatchRank "Boston Bruins" bruinsItems 0 = 1 /\
  option_map teamRank
    (returned (tryRealAnalysis configured "bruins tickets" "Boston Bruins"
                 onlineWorld))
  = Some "#3" /\
  renderTeamRank (firstMatchRank "Boston Bruins" bruinsItems 0) = "#1".
Proof. repeat split; vm_compute; reflexivity. Qed.

(* ================================================================== *)
(** ** The simulated team rank *)

Lemma count_from_threshold (t N : nat) :
  List.length (filter (fun k => (t <=? k)%nat) (seq 0 N)) = (N - t)%nat.
Proof.
  induction N as [|N IH]; [reflexivity|].
  rewrite seq_S, filter_app, length_app, IH. cbn [filter Nat.add].
  destruct (Nat.leb_spec t N); cbn [List.length]; lia.
Qed.

Lemma simulatedTeamRank_run (w : World) :
  returned (simulatedTeamRank w)
  = Some (if negb (Qle_bool (draws w 0%nat) (3 # 5)) then -1
          else Js.floor (draws w 1%nat * 10) + 1).
Proof.
  unfold simulatedTeamRank, bind, random, ret, returned. simpl.
  destruct (negb (Qle_bool (draws w 0%nat) (3 # 5))); reflexivity.
Qed.

Lemma floor_times_ten (q : Q) (v : Z) :
  Js.floor (q * 10) + 1 = v <-> ((v - 1) # 10 <= q /\ q < v # 10)%Q.
Proof.
  destruct q as [n d]. unfold Js.floor, Qle, Qlt. simpl.
  rewrite Pos.mul_1_r.
  pose proof (Z.div_mod (n * 10) (Z.pos d) ltac:(lia)) as Hdm.
  pose proof (Z.mod_pos_bound (n * 10) (Z.pos d) ltac:(lia)) as Hb.
  split; [intros <- | intros [Hlo Hhi]]; nia.
Qed.

Lemma floor_times_ten_range (q : Q) :
  (0 <= q /\ q < 1)%Q -> 1 <= Js.floor (q * 10) + 1 <= 10.
Proof.
  destruct q as [n d]. unfold Js.floor, Qle, Qlt. simpl.
  rewrite Pos.mul_1_r. intros [H0 H1].
  pose proof (Z.div_mod (n * 10) (Z.pos d) ltac:(lia)) as Hdm.
  pose proof (Z.mod_pos_bound (n * 10) (Z.pos d) ltac:(lia)) as Hb.
  nia.
Qed.

Lemma notFoundAt_threshold (w : World) (N k : nat) :
  Fair w -> (0 < N)%nat ->
  notFoundAt w N k = (3 * N / 5 + 1 <=? k)%nat.
Proof.
  intros Hfair HN. unfold notFoundAt. rewrite simulatedTeamRank_run.
  cbn [withFirstDraw draws].
  assert (HP : Z.pos (Pos.of_nat N) = Z.of_nat N)
    by (rewrite <- positive_nat_Z, Nat2Pos.id; lia).
  pose proof (Nat.div_mod_eq (3 * N) 5) as Hdm.
  pose proof (Nat.mod_upper_bound (3 * N) 5 ltac:(lia)) as Hb.
  unfold Qle_bool. cbn [Qnum Qden]. rewrite HP.
  destruct (Z.leb_spec (Z.of_nat k * 5) (3 * Z.of_nat N)); cbn [negb].
  - pose proof (floor_times_ten_range (draws w 0%nat) (Hfair 0%nat)) as Hr.
    destruct (Z.eqb_spec (Js.floor (draws w 0%nat * 10) + 1) (-1)); [lia|].
    symmetry. apply Nat.leb_gt. lia.
  - symmetry. apply Nat.leb_le. lia.
Qed.

Lemma notFoundCount_value (w : World) (N : nat) :
  Fair w -> (0 < N)%nat ->
  notFoundCount w N = (N - (3 * N / 5 + 1))%nat.
Proof.
  intros Hfair HN. unfold notFoundCount.
  rewrite <- count_from_threshold. f_equal.
  apply filter_ext. intros k. now apply notFoundAt_threshold.
Qed.

Lemma notFound_measure : NotFoundMeasure 2 5.
Proof.
  intros w Hfair N HN. rewrite (notFoundCount_value w N Hfair HN).
  pose proof (Nat.div_mod_eq (3 * N) 5) as Hdm.
  pose proof (Nat.mod_upper_bound (3 * N) 5 ltac:(lia)) as Hb.
  lia.
Qed.

Lemma offlineWorld_fair : Fair offlineWorld.
Proof. intros n. split; [unfold Qle | unfold Qlt]; simpl; lia. Qed.

(** C2, as the code has it.  The simulated team rank is [-1] exactly on the
    draws above 0.6, a set of measure 0.4; on the other draws it is an
    integer from 1 to 10, and it is [v] when the second draw is in
    [[(v-1)/10, v/10)], up to less than [2^-53] at either end of the interval,
    which is what the rounding of the product can move: each of the ten ranks
    is as likely as the others. *)
Theorem C2_simulated_rank_distribution :
  NotFoundMeasure 2 5 /\
  forall w, Fair w ->
    (returned (simulatedTeamRank w) = Some (-1) <-> (3 # 5 < draws w 0%nat)%Q) /\
    ((draws w 0%nat <= 3 # 5)%Q ->
     (exists v, returned (simulatedTeamRank w) = Some v /\ 1 <= v <= 10) /\
     forall v,
       (((v - 1) # 10 <= draws w 1%nat /\
         draws w 1%nat < (v # 10) - doubleStep)%Q ->
        returned (simulatedTeamRank w) = Some v) /\
       (returned (simulatedTeamRank w) = Some v ->
        (((v - 1) # 10) - doubleStep <= draws w 1%nat /\
         draws w 1%nat < v # 10)%Q)).
Proof.
  split; [exact notFound_measure|].
  intros w Hfair. rewrite simulatedTeamRank_run.
  pose proof (floor_times_ten_range (draws w 1%nat) (Hfair 1%nat)) as Hr.
  destruct (Qle_bool (draws w 0%nat) (3 # 5)) eqn:Hle; cbn [negb].
  - apply Qle_bool_iff in Hle. split.
    + split.
      * intros H.
        enough (Js.floor (draws w 1%nat * 10) + 1 = -1) by lia.
        congruence.
      * intros H. exfalso. now apply (Qlt_not_le _ _ H).
    + intros _. split.
      * eexists. split; [reflexivity | exact Hr].
      * intros v. split.
        -- intros [Hlo Hhi]. f_equal. apply floor_times_ten.
           unfold doubleStep in Hhi. split; [exact Hlo | lra].
        -- intros H.
           assert (Hv : Js.floor (draws w 1%nat * 10) + 1 = v) by congruence.
           apply floor_times_ten in Hv as [Hlo Hhi].
           unfold doubleStep. split; [lra | exact Hhi].
  - assert (Hgt : (3 # 5 < draws w 0%nat)%Q).
    { apply Qnot_le_lt. intros H. apply Qle_bool_iff in H. congruence. }
    split; [tauto|].
    intros H. exfalso. now apply (Qlt_not_le _ _ Hgt).
Qed.

(** On the grid of 100 draws, 39 give [-1], not 60 or so; and the draw
    [1/2], below 0.6, gives a rank and not [-1]. *)
Lemma C2_counterexample :
  notFoundCount offlineWorld 100 = 39%nat /\
  5 < Z.abs (5 * Z.of_nat (notFoundCount offlineWorld 100) - 3 * 100) /\
  returned (simulatedTeamRank offlineWorld) = Some 6.
Proof. repeat split; vm_compute; reflexivity. Qed.

(* ================================================================== *)
(** ** The provider client and the fallback *)

Lemma bind_inv_ok {A B} (c : M A) (k : A -> M B) (w w' : World) (b : B) :
  bind c k w = (Ok b, w') ->
  exists a w1, c w = (Ok a, w1) /\ k a w1 = (Ok b, w').
Proof.
  unfold bind. destruct (c w) as [[a|e] w1]; [eauto | discriminate].
Qed.

Lemma acceptedBody_cases (o : Api.FetchOutcome) :
  match acceptedBody o with
  | Some b =>
      exists r, o = Api.Responded r /\ Api.ok r = true /\ Api.json r = Some b /\
                Js.strictEqualsNumber (Api.status_code b) 20000 = true
  | None =>
      (exists e, o = Api.Rejected e) \/
      (exists r, o = Api.Responded r /\
                 (Api.ok r = false \/
                  Api.ok r = true /\ Api.json r = None \/
                  exists b, Api.ok r = true /\ Api.json r = Some b /\
                            Js.strictEqualsNumber (Api.status_code b) 20000 = false))
  end.
Proof.
  unfold acceptedBody. destruct o as [e|r]; [left; eauto|].
  destruct (Api.ok r) eqn:Hok;
    [|right; exists r; split; [reflexivity | now left]].
  destruct (Api.json r) as [b|] eqn:Hjson;
    [|right; exists r; split; [reflexivity | right; left; now split]].
  destruct (Api.status_code b) as [code|] eqn:Hcode.
  - destruct (code =? 20000) eqn:Heq.
    + exists r. rewrite Hcode. auto.
    + right. exists r. split; [reflexivity|]. right. right.
      exists b. rewrite Hcode. auto.
  - right. exists r. split; [reflexivity|]. right. right.
    exists b. rewrite Hcode. auto.
Qed.

Lemma makeDataForSEORequest_accepted (cfg : Config) (endpoint : string)
    (data : list Api.TaskPost) (method : Api.Method) (w : World) (b : Api.Body) :
  let req := {| Api.url := baseUrl cfg ++ endpoint;
                Api.method := method;
                Api.body := match method with
                            | Api.POST => Some data
                            | Api.GET => None
                            end |} in
  acceptedBody (replies w 0%nat req) = Some b ->
  makeDataForSEORequest cfg endpoint data method w = (Ok b, afterFetch w).
Proof.
  intros req H. pose proof (acceptedBody_cases (replies w 0%nat req)) as Hc.
  rewrite H in Hc. destruct Hc as [r [Hr [Hok [Hjson Hcode]]]].
  unfold makeDataForSEORequest, tryCatch, bind, fetch, responseJson.
  fold req. rewrite Hr, Hok, Hjson. cbn [negb]. unfold ret at 1.
  rewrite Hcode. reflexivity.
Qed.

Lemma makeDataForSEORequest_refused (cfg : Config) (endpoint : string)
    (data : list Api.TaskPost) (method : Api.Method) (w : World) :
  let req := {| Api.url := baseUrl cfg ++ endpoint;
                Api.method := method;
                Api.body := match method with
                            | Api.POST => Some data
                            | Api.GET => None
                            end |} in
  acceptedBody (replies w 0%nat req) = None ->
  exists e, makeDataForSEORequest cfg endpoint data method w
            = (Thrown e, afterFetch w).
Proof.
  intros req H. pose proof (acceptedBody_cases (replies w 0%nat req)) as Hc.
  rewrite H in Hc.
  unfold makeDataForSEORequest, tryCatch, bind, fetch, responseJson.
  fold req.
  destruct Hc as [[e ->] | [r [-> [Hok | [[Hok Hjson] | [b [Hok [Hjson Hcode]]]]]]]].
  - eexists; reflexivity.
  - rewrite Hok. eexists; reflexivity.
  - rewrite Hok, Hjson. eexists; reflexivity.
  - rewrite Hok, Hjson. cbn [negb]. unfold ret at 1. rewrite Hcode.
    eexists; reflexivity.
Qed.

Lemma getRealSERPData_submit_refused (cfg : Config) (keyword : string) (w : World) :
  acceptedBody (replies w 0%nat (submitRequest cfg keyword)) = None ->
  getRealSERPData cfg keyword w = (Ok None, afterFetch w).
Proof.
  intros H. unfold getRealSERPData.
  destruct (makeDataForSEORequest_refused cfg "/serp/google/organic/task_post"
              [ {| Api.keyword := keyword; Api.location_code := 2840;
                   Api.language_code := "en"; Api.device := "desktop" |} ]
              Api.POST w H) as [e He].
  erewrite tryCatch_thrown by (erewrite bind_thrown by exact He; reflexivity).
  reflexivity.
Qed.

Lemma getRealSERPData_job_rejected (cfg : Config) (keyword : string) (w : World)
    (b1 : Api.Body) :
  acceptedBody (replies w 0%nat (submitRequest cfg keyword)) = Some b1 ->
  jobId b1 = None ->
  getRealSERPData cfg keyword w = (Ok None, afterFetch w).
Proof.
  intros H Hjob. unfold getRealSERPData.
  pose proof (makeDataForSEORequest_accepted cfg "/serp/google/organic/task_post"
                [ {| Api.keyword := keyword; Api.location_code := 2840;
                     Api.language_code := "en"; Api.device := "desktop" |} ]
                Api.POST w b1 H) as Hb.
  apply tryCatch_ok. erewrite bind_ok by exact Hb.
  unfold jobId in Hjob.
  destruct (Api.tasks b1) as [[|[task|] ts]|]; try reflexivity.
  destruct (Js.truthy (Api.id task)) eqn:Ht; [|reflexivity].
  destruct (Api.id task) as [[|c i]|]; discriminate.
Qed.

Lemma getRealSERPData_second_call (cfg : Config) (keyword : string) (w : World)
    (b1 : Api.Body) (taskId : string)
    (r : Result (option Api.SerpData) * World) :
  acceptedBody (replies w 0%nat (submitRequest cfg keyword)) = Some b1 ->
  jobId b1 = Some taskId ->
  tryCatch
    (resultsData <- makeDataForSEORequest cfg
                      ("/serp/google/organic/task_get/" ++ taskId) [] Api.GET ;;
     match Api.tasks resultsData with
     | Some (Some task' :: _) =>
         match Api.result task' with
         | Some (first :: _) => ret first
         | Some [] => ret None
         | None => ret None
         end
     | _ => ret None
     end)
    (fun _ => ret None) (afterFetch w) = r ->
  getRealSERPData cfg keyword w = r.
Proof.
  intros H Hjob Hr. unfold getRealSERPData.
  pose proof (makeDataForSEORequest_accepted cfg "/serp/google/organic/task_post"
                [ {| Api.keyword := keyword; Api.location_code := 2840;
                     Api.language_code := "en"; Api.device := "desktop" |} ]
                Api.POST w b1 H) as Hb.
  unfold tryCatch at 1. erewrite bind_ok by exact Hb.
  unfold jobId in Hjob.
  destruct (Api.tasks b1) as [[|[task|] ts]|]; try discriminate.
  destruct (Js.truthy (Api.id task)) eqn:Ht; [|discriminate].
  rewrite Hjob. rewrite <- Hr. unfold tryCatch. reflexivity.
Qed.

Lemma getRealSERPData_retrieve_refused (cfg : Config) (keyword : string)
    (w : World) (b1 : Api.Body) (taskId : string) :
  acceptedBody (replies w 0%nat (submitRequest cfg keyword)) = Some b1 ->
  jobId b1 = Some taskId ->
  acceptedBody (replies w 1%nat (retrieveRequest cfg taskId)) = None ->
  getRealSERPData cfg keyword w = (Ok None, afterFetch (afterFetch w)).
Proof.
  intros H Hjob H2.
  apply (getRealSERPData_second_call cfg keyword w b1 taskId _ H Hjob).
  destruct (makeDataForSEORequest_refused cfg
              ("/serp/google/organic/task_get/" ++ taskId) [] Api.GET
              (afterFetch w) H2) as [e He].
  erewrite tryCatch_thrown by (erewrite bind_thrown by exact He; reflexivity).
  reflexivity.
Qed.

Lemma getRealSERPData_retrieved (cfg : Config) (keyword : string)
    (w : World) (b1 b2 : Api.Body) (taskId : string) :
  acceptedBody (replies w 0%nat (submitRequest cfg keyword)) = Some b1 ->
  jobId b1 = Some taskId ->
  acceptedBody (replies w 1%nat (retrieveRequest cfg taskId)) = Some b2 ->
  getRealSERPData cfg keyword w = (Ok (firstResult b2), afterFetch (afterFetch w)).
Proof.
  intros H Hjob H2.
  apply (getRealSERPData_second_call cfg keyword w b1 taskId _ H Hjob).
  pose proof (makeDataForSEORequest_accepted cfg
                ("/serp/google/organic/task_get/" ++ taskId) [] Api.GET
                (afterFetch w) b2 H2) as Hb.
  apply tryCatch_ok. erewrite bind_ok by exact Hb.
  unfold firstResult.
  destruct (Api.tasks b2) as [[|[task|] ts]|]; try reflexivity.
  destruct (Api.result task) as [[|first rest]|]; reflexivity.
Qed.

Lemma simulatedTeamRank_returns (w : World) :
  exists rank w', simulatedTeamRank w = (Ok rank, w').
Proof.
  unfold simulatedTeamRank, bind, random, ret. simpl.
  destruct (negb _); eauto.
Qed.

Lemma simulatedCompetitors_three (keyword : string) :
  Js.slice0 3 (getSimulatedCompetitors keyword) = getSimulatedCompetitors keyword.
Proof.
  unfold getSimulatedCompetitors.
  repeat (destruct (Js.includes keyword _); [reflexivity|]). reflexivity.
Qed.

(** The simulation always returns, and what it returns is a simulated
    record. *)
Lemma createSimulatedAnalysis_returns (keyword teamName : string) (w : World) :
  exists a w',
    createSimulatedAnalysis keyword teamName w = (Ok a, w') /\
    SimulatedRecord keyword a.
Proof.
  destruct (simulatedTeamRank_returns w) as [rank [w1 Hrank]].
  destruct (searchVolume_returns keyword w1) as [volume [w2 Hvol]].
  eexists _, w2. split.
  - unfold createSimulatedAnalysis.
    erewrite bind_ok by exact Hrank. erewrite bind_ok by exact Hvol.
    reflexivity.
  - exists rank, volume. now rewrite simulatedCompetitors_three.
Qed.

Lemma forEachItem_null (teamName : string) (items : list (option Api.Item)) :
  In None items ->
  forall (index teamRank : Z) (w : World),
  exists e, forEachItem teamName items index teamRank w = (Thrown e, w).
Proof.
  induction items as [|item rest IH]; intros Hin index teamRank w; [contradiction|].
  destruct item as [it|]; simpl.
  - destruct Hin as [Hin | Hin]; [discriminate|].
    unfold bind, ret. simpl. apply (IH Hin).
  - eexists. reflexivity.
Qed.

Lemma mapM_itemDomain_world (items : list (option Api.Item)) (w : World) :
  snd (mapM itemDomain items w) = w.
Proof.
  induction items as [|item rest IH]; simpl; [reflexivity|].
  unfold bind. destruct item as [it|]; simpl; [|reflexivity].
  destruct (mapM itemDomain rest w) as [[ds|e] w1] eqn:E; simpl in *; exact IH.
Qed.

(** A [null] among the items makes the real path throw. *)
Lemma realAnalysis_null (keyword teamName : string) (serpData : Api.SerpData)
    (items : list (option Api.Item)) (w : World) :
  In None items ->
  exists e w', realAnalysis keyword teamName serpData items w = (Thrown e, w').
Proof.
  intros Hin. unfold realAnalysis.
  destruct (run_cases (mapM itemDomain (Js.slice0 3 items)) w)
    as [[ds [w1 Hds]] | [e [w1 He]]].
  - destruct (forEachItem_null teamName items Hin 0 (-1) w1) as [e He].
    exists e, w1. erewrite bind_ok by exact Hds.
    unfold findTeamRank. now erewrite bind_thrown by exact He.
  - exists e, w1. now erewrite bind_thrown by exact He.
Qed.

(** What the real path returns is a real-data record of the keyword. *)
Lemma realAnalysis_real (keyword teamName : string) (serpData : Api.SerpData)
    (items : list (option Api.Item)) (w w' : World) (a : Analysis) :
  realAnalysis keyword teamName serpData items w = (Ok a, w') ->
  RealRecord keyword a.
Proof.
  unfold realAnalysis. intros H.
  apply bind_inv_ok in H as [ds [w1 [_ H]]].
  apply bind_inv_ok in H as [rank [w2 [_ H]]].
  apply bind_inv_ok in H as [volume [w3 [_ H]]].
  unfold ret in H. injection H as <- _. now split.
Qed.

(** The inner [try]/[catch] always ends with a record: the one of the real
    path when it returns, the one of the simulation when it throws. *)
Lemma tryRealAnalysis_cases (cfg : Config) (keyword teamName : string) (w : World) :
  exists r w1,
    getRealSERPData cfg keyword w = (Ok r, w1) /\
    ((exists serpData items a w',
         r = Some serpData /\ Api.items serpData = Some items /\
         realAnalysis keyword teamName serpData items w1 = (Ok a, w') /\
         tryRealAnalysis cfg keyword teamName w = (Ok a, w'))
     \/
     (exists w2,
         (r = None \/
          (exists serpData, r = Some serpData /\ Api.items serpData = None) \/
          (exists serpData items e,
              r = Some serpData /\ Api.items serpData = Some items /\
              realAnalysis keyword teamName serpData items w1 = (Thrown e, w2))) /\
         tryRealAnalysis cfg keyword teamName w
         = createSimulatedAnalysis keyword teamName w2)).
Proof.
  assert (Hget : exists r w1, getRealSERPData cfg keyword w = (Ok r, w1)).
  { unfold getRealSERPData, tryCatch.
    destruct (bind _ _ w) as [[r|e] w1]; unfold ret; eauto. }
  destruct Hget as [r [w1 Hget]]. exists r, w1. split; [exact Hget|].
  unfold tryRealAnalysis.
  destruct r as [serpData|].
  - destruct (Api.items serpData) as [items|] eqn:Hitems.
    + destruct (run_cases (realAnalysis keyword teamName serpData items) w1)
        as [[a [w' Ha]] | [e [w2 He]]].
      * left. exists serpData, items, a, w'. repeat split; try assumption.
        apply tryCatch_ok. erewrite bind_ok by exact Hget.
        cbv beta iota. now rewrite Hitems.
      * right. exists w2. split; [right; right; eauto 8|].
        erewrite tryCatch_thrown; [reflexivity|].
        erewrite bind_ok by exact Hget. cbv beta iota. rewrite Hitems. exact He.
    + right. exists w1. split; [right; left; eauto|].
      erewrite tryCatch_thrown; [reflexivity|].
      erewrite bind_ok by exact Hget. cbv beta iota. rewrite Hitems. reflexivity.
  - right. exists w1. split; [now left|].
    erewrite tryCatch_thrown; [reflexivity|].
    erewrite bind_ok by exact Hget. reflexivity.
Qed.

(** C5.  [getRealSERPData] always returns: a call that fails (no reply, an
    HTTP status that is not a success, a body that does not parse, a
    [status_code] other than 20000), a job that is not accepted and a retrieval
    without a first result all end in the absent result.  The orchestrator
    then always has a record: when the provider gave no usable data the
    record is the simulated one, with every field set, [isRealData = false]
    and [cost = 0]; when it gave a result with items it is a real-data
    record. *)
Theorem C5_provider_failure_falls_back
    (cfg : Config) (keyword teamName : string) (w : World) :
  exists r w1 a w',
    getRealSERPData cfg keyword w = (Ok r, w1) /\
    (acceptedBody (replies w 0%nat (submitRequest cfg keyword)) = None ->
     r = None) /\
    (forall b1,
        acceptedBody (replies w 0%nat (submitRequest cfg keyword)) = Some b1 ->
        jobId b1 = None -> r = None) /\
    (forall b1 taskId,
        acceptedBody (replies w 0%nat (submitRequest cfg keyword)) = Some b1 ->
        jobId b1 = Some taskId ->
        (acceptedBody (replies w 1%nat (retrieveRequest cfg taskId)) = None ->
         r = None) /\
        (forall b2,
            acceptedBody (replies w 1%nat (retrieveRequest cfg taskId)) = Some b2 ->
            r = firstResult b2)) /\
    tryRealAnalysis cfg keyword teamName w = (Ok a, w') /\
    (NoData r -> SimulatedRecord keyword a) /\
    (forall serpData items,
        r = Some serpData -> Api.items serpData = Some (map Some items) ->
        RealRecord keyword a).
Proof.
  destruct (tryRealAnalysis_cases cfg keyword teamName w)
    as [r [w1 [Hget Hcases]]].
  assert (Hclient :
    (acceptedBody (replies w 0%nat (submitRequest cfg keyword)) = None ->
     r = None) /\
    (forall b1,
        acceptedBody (replies w 0%nat (submitRequest cfg keyword)) = Some b1 ->
        jobId b1 = None -> r = None) /\
    (forall b1 taskId,
        acceptedBody (replies w 0%nat (submitRequest cfg keyword)) = Some b1 ->
        jobId b1 = Some taskId ->
        (acceptedBody (replies w 1%nat (retrieveRequest cfg taskId)) = None ->
         r = None) /\
        (forall b2,
            acceptedBody (replies w 1%nat (retrieveRequest cfg taskId)) = Some b2 ->
            r = firstResult b2))).
  { split; [|split].
    - intros H. pose proof (getRealSERPData_submit_refused cfg keyword w H).
      congruence.
    - intros b1 H Hjob.
      pose proof (getRealSERPData_job_rejected cfg keyword w b1 H Hjob).
      congruence.
    - intros b1 taskId H Hjob. split.
      + intros H2.
        pose proof (getRealSERPData_retrieve_refused cfg keyword w b1 taskId H Hjob H2).
        congruence.
      + intros b2 H2.
        pose proof (getRealSERPData_retrieved cfg keyword w b1 b2 taskId H Hjob H2).
        congruence. }
  destruct Hclient as [Hc1 [Hc2 Hc3]].
  destruct Hcases
    as [[serpData [items [a [w' [-> [Hitems [Hreal Htry]]]]]]] | [w2 [Hfail Htry]]].
  - exists (Some serpData), w1, a, w'.
    repeat (split; [assumption|]). split.
    + intros [Hnone | [sd [Hsd [Hno | [items' [Hitems' Hnull]]]]]];
        [discriminate | congruence |].
      injection Hsd as <-. rewrite Hitems in Hitems'. injection Hitems' as <-.
      destruct (realAnalysis_null keyword teamName serpData items w1 Hnull)
        as [e [w3 He]].
      congruence.
    + intros _ _ _ _. eapply realAnalysis_real; eauto.
  - destruct (createSimulatedAnalysis_returns keyword teamName w2)
      as [a [w' [Hsim Hrec]]].
    exists r, w1, a, w'.
    repeat (split; [assumption|]).
    split; [congruence|]. split; [intros _; exact Hrec|].
    intros serpData items -> Hitems.
    destruct Hfail as [Hnone | [[sd [Hsd Hno]] | [sd [items' [e [Hsd [Hitems' He]]]]]]];
      [discriminate | congruence |].
    injection Hsd as <-. rewrite Hitems in Hitems'. injection Hitems' as <-.
    destruct (realAnalysis_present keyword teamName serpData items w1)
      as [volume [w3 Hok]].
    congruence.
Qed.

(** With the provider unreachable the record of a keyword is simulated. *)
Example offline_record_is_simulated :
  option_map (fun a => (isRealData a, cost a, gapType a))
    (returned (tryRealAnalysis configured "first time at td garden"
                 "Boston Bruins" offlineWorld))
  = Some (false, 0%Q, "First-Timer Experience Gap").
Proof. vm_compute. reflexivity. Qed.

(** With the provider answering it is a real-data record. *)
Example online_record_is_real :
  option_map (fun a => (isRealData a, competitors a))
    (returned (tryRealAnalysis configured "bruins tickets"
                 "Boston Bruins" onlineWorld))
  = Some (true, ["bruins.com"; "espn.com"; "bostonbruins.com"]).
Proof. vm_compute. reflexivity. Qed.

(* ================================================================== *)
(** ** The keyword loop *)

Lemma simulatedRecord_fields (keyword' : string) (a : Analysis) :
  SimulatedRecord keyword' a ->
  keyword a = keyword' /\ isRealData a = false /\ cost a = 0%Q.
Proof. intros [rank [volume ->]]. now repeat split. Qed.

(** A turn of the loop always yields a record of its keyword; the record is
    a real-data record only in the first three turns, and only with both
    credentials. *)
Lemma analyzeKeyword_returns (cfg : Config) (teamName : string) (i : nat)
    (keyword' : string) (w : World) :
  exists a w',
    analyzeKeyword cfg teamName i keyword' w = (Ok a, w') /\
    keyword a = keyword' /\
    (isRealData a = true -> (i < maxRealAnalyses)%nat /\ hasCredentials cfg = true).
Proof.
  unfold analyzeKeyword.
  destruct ((i <? maxRealAnalyses)%nat && hasCredentials cfg) eqn:Helig.
  - apply andb_true_iff in Helig as [Hi Hc]. apply Nat.ltb_lt in Hi.
    destruct (tryRealAnalysis_cases cfg keyword' teamName w)
      as [r [w1 [_ [[sd [items [a [w' [_ [_ [Hreal Htry]]]]]]] | [w2 [_ Htry]]]]]].
    + exists a, w'. split; [exact Htry|].
      destruct (realAnalysis_real _ _ _ _ _ _ _ Hreal) as [Hk _]. auto.
    + destruct (createSimulatedAnalysis_returns keyword' teamName w2)
        as [a [w' [Hsim Hrec]]].
      apply simulatedRecord_fields in Hrec as [Hk [Hr _]].
      exists a, w'. split; [congruence|]. split; [exact Hk | congruence].
  - destruct (createSimulatedAnalysis_returns keyword' teamName w)
      as [a [w' [Hsim Hrec]]].
    apply simulatedRecord_fields in Hrec as [Hk [Hr _]].
    exists a, w'. split; [exact Hsim|]. split; [exact Hk | congruence].
Qed.

Lemma keywordLoop_returns (cfg : Config) (teamName : string)
    (keywords : list string) (steps : nat) :
  forall (i : nat) (acc : list Analysis) (w : World),
  exists records w',
    keywordLoop cfg teamName keywords steps i acc w = (Ok (acc ++ records)%list, w') /\
    List.length records = steps /\
    map keyword records = map (keywordAt keywords) (seq i steps) /\
    (List.length (filter isRealData records) <= maxRealAnalyses - i)%nat /\
    (hasCredentials cfg = false -> filter isRealData records = []).
Proof.
  induction steps as [|steps IH]; intros i acc w.
  - exists [], w. rewrite app_nil_r. repeat split; simpl; auto; lia.
  - destruct (analyzeKeyword_returns cfg teamName i (keywordAt keywords i) w)
      as [a [w1 [Ha [Hk Hreal]]]].
    destruct (IH (S i) (acc ++ [a])%list w1)
      as [records [w' [Hloop [Hlen [Hkeys [Hcount Hnone]]]]]].
    exists (a :: records), w'. split; [|split; [|split; [|split]]].
    + cbn [keywordLoop]. erewrite bind_ok by exact Ha.
      rewrite Hloop, <- app_assoc. reflexivity.
    + simpl. now rewrite Hlen.
    + simpl. now rewrite Hk, Hkeys.
    + cbn [filter]. destruct (isRealData a) eqn:Hr.
      * destruct (Hreal eq_refl) as [Hi _]. cbn [List.length]. lia.
      * lia.
    + intros Hcfg. cbn [filter]. destruct (isRealData a) eqn:Hr.
      * destruct (Hreal eq_refl) as [_ Hc]. congruence.
      * now apply Hnone.
Qed.

Lemma keywordAt_seq (keywords : list string) :
  forall n, (n <= List.length keywords)%nat ->
            map (keywordAt keywords) (seq 0 n) = firstn n keywords.
Proof.
  unfold keywordAt.
  induction keywords as [|k rest IH]; intros n Hn.
  - simpl in Hn. now replace n with 0%nat by lia.
  - destruct n as [|n]; [reflexivity|].
    simpl in Hn. cbn [seq map firstn nth]. f_equal.
    rewrite <- seq_shift, map_map. apply IH. lia.
Qed.

Lemma firstn_min_five (keywords : list string) :
  firstn (Nat.min 5 (List.length keywords)) keywords = firstn 5 keywords.
Proof.
  destruct (Nat.le_ge_cases 5 (List.length keywords)) as [H | H].
  - now rewrite Nat.min_l.
  - rewrite Nat.min_r by exact H.
    now rewrite firstn_all, firstn_all2.
Qed.

(** The loop of the handler: one record for each of the first five
    keywords, in their order, at most three of them real. *)
Lemma processKeywords_returns (cfg : Config) (teamName : string)
    (keywords : list string) (w : World) :
  exists records w',
    processKeywords cfg teamName keywords w = (Ok records, w') /\
    List.length records = Nat.min 5 (List.length keywords) /\
    map keyword records = firstn 5 keywords /\
    (List.length (filter isRealData records) <= 3)%nat /\
    (hasCredentials cfg = false -> filter isRealData records = []).
Proof.
  destruct (keywordLoop_returns cfg teamName keywords
              (Nat.min 5 (List.length keywords)) 0 [] w)
    as [records [w' [Hloop [Hlen [Hkeys [Hcount Hnone]]]]]].
  exists records, w'. split; [exact Hloop|]. split; [exact Hlen|].
  split; [|split; [unfold maxRealAnalyses in Hcount; lia | exact Hnone]].
  rewrite Hkeys, keywordAt_seq by lia. apply firstn_min_five.
Qed.

Lemma elementAt_strings (keywords : list string) (i : nat) :
  (i < List.length keywords)%nat ->
  elementAt (map Js.Str keywords) i = Js.Str (keywordAt keywords i).
Proof.
  intros Hi. unfold elementAt, keywordAt.
  rewrite (nth_indep _ Js.Null (Js.Str "")) by (rewrite length_map; exact Hi).
  apply map_nth.
Qed.

(** On an array of strings the loop of the handler is the loop over
    strings. *)
Lemma elementLoop_strings (cfg : Config) (teamName : string)
    (keywords : list string) (steps : nat) :
  forall i acc w,
    (i + steps <= List.length keywords)%nat ->
    elementLoop cfg teamName (map Js.Str keywords) steps i acc w
    = keywordLoop cfg teamName keywords steps i acc w.
Proof.
  induction steps as [|steps IH]; intros i acc w Hi; [reflexivity|].
  cbn [elementLoop keywordLoop]. rewrite elementAt_strings by lia.
  cbn [analyzeElement]. unfold bind.
  destruct (analyzeKeyword cfg teamName i (keywordAt keywords i) w) as [[a|e] w1];
    [|reflexivity].
  apply IH. lia.
Qed.

Lemma processElements_strings (cfg : Config) (teamName : string)
    (keywords : list string) (w : World) :
  processElements cfg teamName (map Js.Str keywords) w
  = processKeywords cfg teamName keywords w.
Proof.
  unfold processElements, processKeywords. rewrite length_map.
  apply elementLoop_strings. lia.
Qed.

(** A valid request is always answered with status 200, and the response is
    built from the records of the loop, sorted. *)
Lemma analyze_valid (cfg : Config) (c : ascii) (t : string)
    (league' : option string) (keywords : list string) (w : World) :
  exists records w',
    processKeywords cfg (String c t) keywords w = (Ok records, w') /\
    analyze cfg (validRequest c t league' keywords) w
    = (Ok (Status200
             {| success := true;
                teamName := String c t;
                league := league';
                totalKeywords := List.length keywords;
                analyses := Js.sort byOpportunity records;
                summary := summarize (Js.sort byOpportunity records) |}), w').
Proof.
  destruct (processKeywords_returns cfg (String c t) keywords w)
    as [records [w' [Hrun _]]].
  exists records, w'. split; [exact Hrun|].
  unfold analyze, validRequest. cbn [Req.teamName Req.keywords Req.league].
  apply tryCatch_ok.
  erewrite bind_ok by (rewrite processElements_strings; exact Hrun).
  now rewrite length_map.
Qed.









(* ================================================================== *)
(** ** Sorting *)

Section Sort.

Context {A : Type}.
Variable cmp : A -> A -> Z.

Lemma sortInsert_perm (x : A) (l : list A) :
  Permutation (Js.sortInsert cmp x l) (x :: l).
Proof.
  induction l as [|y l IH]; simpl; [reflexivity|].
  destruct (0 <? cmp x y); [|reflexivity].
  rewrite IH. apply perm_swap.
Qed.

Lemma sort_perm (l : list A) : Permutation (Js.sort cmp l) l.
Proof.
  induction l as [|x l IH]; simpl; [reflexivity|].
  rewrite sortInsert_perm. now apply perm_skip.
Qed.

(** A filter that never keeps both of two elements the sort exchanges
    sees the same elements in the same order before and after. *)
Variable p : A -> bool.
Hypothesis p_apart : forall x y, 0 < cmp x y -> p x = true -> p y = true -> False.

Lemma sortInsert_filter (x : A) (l : list A) :
  filter p (Js.sortInsert cmp x l) = filter p (x :: l).
Proof.
  induction l as [|y l IH]; [reflexivity|].
  cbn [Js.sortInsert]. destruct (Z.ltb_spec 0 (cmp x y)) as [Hlt | Hge];
    [|reflexivity].
  cbn [filter] in *. rewrite IH.
  destruct (p x) eqn:Hx, (p y) eqn:Hy; try reflexivity.
  exfalso. eapply p_apart; eauto.
Qed.

Lemma sort_filter (l : list A) : filter p (Js.sort cmp l) = filter p l.
Proof.
  induction l as [|x l IH]; [reflexivity|].
  cbn [Js.sort]. rewrite sortInsert_filter. cbn [filter]. now rewrite IH.
Qed.

End Sort.

Lemma sortInsert_length_filter {A} (cmp : A -> A -> Z) (p : A -> bool)
    (x : A) (l : list A) :
  List.length (filter p (Js.sortInsert cmp x l)) = List.length (filter p (x :: l)).
Proof.
  induction l as [|y l IH]; [reflexivity|].
  cbn [Js.sortInsert]. destruct (0 <? cmp x y); [|reflexivity].
  cbn [filter] in *. destruct (p x), (p y); cbn [List.length] in *; lia.
Qed.

(** Sorting changes no count. *)
Lemma sort_length_filter {A} (cmp : A -> A -> Z) (p : A -> bool) (l : list A) :
  List.length (filter p (Js.sort cmp l)) = List.length (filter p l).
Proof.
  induction l as [|x l IH]; [reflexivity|].
  cbn [Js.sort]. rewrite sortInsert_length_filter.
  cbn [filter]. destruct (p x); cbn [List.length]; lia.
Qed.


Lemma sortInsert_descending (x : Analysis) (l : list Analysis) :
  Descending l -> Descending (Js.sortInsert byOpportunity x l).
Proof.
  unfold Descending. induction l as [|y l IH]; intros Hl.
  - repeat constructor.
  - cbn [Js.sortInsert]. unfold byOpportunity at 1.
    apply StronglySorted_inv in Hl as [Hl Hy].
    destruct (Z.ltb_spec 0 (opportunity y - opportunity x)) as [Hlt | Hge].
    + constructor; [now apply IH|].
      rewrite Forall_forall in *. intros z Hz.
      apply (Permutation_in _ (sortInsert_perm byOpportunity x l)) in Hz.
      destruct Hz as [<- | Hz]; [lia | now apply Hy].
    + constructor; [now constructor|].
      constructor; [lia|].
      rewrite Forall_forall in *. intros z Hz. specialize (Hy z Hz). lia.
Qed.

Lemma sort_descending (l : list Analysis) : Descending (Js.sort byOpportunity l).
Proof.
  induction l as [|x l IH]; [constructor|].
  cbn [Js.sort]. now apply sortInsert_descending.
Qed.

(** The sort is stable: the records of one opportunity keep their order. *)
Lemma sort_stable (v : Z) (l : list Analysis) :
  withOpportunity v (Js.sort byOpportunity l) = withOpportunity v l.
Proof.
  unfold withOpportunity. apply sort_filter.
  unfold byOpportunity. intros x y Hlt Hx Hy.
  apply Z.eqb_eq in Hx, Hy. lia.
Qed.

(* ================================================================== *)
(** ** The response *)

Lemma fold_left_sum (l : list Analysis) (s : Z) :
  fold_left (fun sum a => sum + searchVolume a) l s = s + total searchVolume l.
Proof.
  revert s. induction l as [|a l IH]; intros s; simpl; [lia|].
  rewrite IH. lia.
Qed.

Lemma length_filter_countWhere (P : Analysis -> Prop)
    (dec : forall a, {P a} + {~ P a}) (p : Analysis -> bool) (l : list Analysis) :
  (forall a, p a = true <-> P a) ->
  List.length (filter p l) = countWhere P dec l.
Proof.
  intros Hp. induction l as [|a l IH]; [reflexivity|].
  cbn [filter countWhere fold_right]. fold (countWhere P dec l).
  destruct (dec a) as [Ha | Ha], (p a) eqn:Hpa; cbn [List.length];
    try (now rewrite IH).
  - apply Hp in Ha. congruence.
  - apply Hp in Hpa. contradiction.
Qed.

Lemma filter_none {A} (p : A -> bool) (l : list A) :
  List.length (filter p l) = 0%nat -> forall a, In a l -> p a = false.
Proof.
  intros Hlen a Hin. destruct (p a) eqn:Hp; [|reflexivity].
  assert (Hf : In a (filter p l)) by (apply filter_In; now split).
  destruct (filter p l); [contradiction | discriminate].
Qed.




(** C6.  In the response to a valid request at most three records have
    [isRealData = true], however many keywords there are; and when the login
    or the password is missing, none has. *)
Theorem C6_at_most_three_real_records (cfg : Config) (c : ascii) (t : string)
    (league' : option string) (keywords : list string) (w : World) :
  exists resp w',
    analyze cfg (validRequest c t league' keywords) w = (Ok (Status200 resp), w') /\
    (countWhere (fun a => isRealData a = true) isRealData_dec (analyses resp) <= 3)%nat /\
    (Js.truthy (login cfg) = false \/ Js.truthy (password cfg) = false ->
     forall a, In a (analyses resp) -> isRealData a = false).
Proof.
  destruct (processKeywords_returns cfg (String c t) keywords w)
    as [records [w1 [Hrun [_ [_ [Hcount Hnone]]]]]].
  destruct (analyze_valid cfg c t league' keywords w)
    as [records' [w' [Hrun' Hresp]]].
  assert (records' = records) by congruence. subst records'.
  eexists _, w'. split; [exact Hresp|]. cbn [analyses]. split.
  - rewrite <- (length_filter_countWhere _ isRealData_dec isRealData)
      by (intros a; reflexivity).
    now rewrite sort_length_filter.
  - intros Hmissing. apply filter_none. rewrite sort_length_filter.
    rewrite Hnone; [reflexivity|].
    unfold hasCredentials. destruct Hmissing as [-> | ->];
      [reflexivity | apply andb_false_r].
Qed.

(** C7.  In the response to a valid request the records are in descending
    order of [opportunity], and records of equal opportunity are in the order
    in which their keywords were processed. *)
Theorem C7_sorted_by_opportunity_stable (cfg : Config) (c : ascii) (t : string)
    (league' : option string) (keywords : list string) (w : World) :
  exists records resp w',
    processKeywords cfg (String c t) keywords w = (Ok records, w') /\
    analyze cfg (validRequest c t league' keywords) w = (Ok (Status200 resp), w') /\
    Descending (analyses resp) /\
    Permutation (analyses resp) records /\
    forall v, withOpportunity v (analyses resp) = withOpportunity v records.
Proof.
  destruct (analyze_valid cfg c t league' keywords w)
    as [records [w' [Hrun Hresp]]].
  eexists records, _, w'. split; [exact Hrun|]. split; [exact Hresp|].
  cbn [analyses]. split; [apply sort_descending|].
  split; [apply sort_perm|]. intros v. apply sort_stable.
Qed.

(** C8.  The summary of the response is computed from its records:
    [totalSearchVolume] is the sum of their [searchVolume], [highOpportunity]
    the number of them with [opportunity >= 7], [realDataCount] the number of
    them with [isRealData = true]. *)
Theorem C8_summary_from_records (cfg : Config) (c : ascii) (t : string)
    (league' : option string) (keywords : list string) (w : World) :
  exists resp w',
    analyze cfg (validRequest c t league' keywords) w = (Ok (Status200 resp), w') /\
    totalSearchVolume (summary resp) = total searchVolume (analyses resp) /\
    highOpportunity (summary resp)
    = countWhere (fun a => 7 <= opportunity a) highOpportunity_dec (analyses resp) /\
    realDataCount (summary resp)
    = countWhere (fun a => isRealData a = true) isRealData_dec (analyses resp).
Proof.
  destruct (analyze_valid cfg c t league' keywords w)
    as [records [w' [_ Hresp]]].
  eexists _, w'. split; [exact Hresp|].
  cbn [analyses summary summarize totalSearchVolume highOpportunity realDataCount].
  split; [|split].
  - rewrite fold_left_sum. lia.
  - apply length_filter_countWhere. intros a. apply Z.leb_le.
  - apply length_filter_countWhere. intros a. reflexivity.
Qed.

(** The handler on five keywords, with the provider answering: the records
    of the first three keywords are real, and the response is sorted, ties in
    the order of the keywords. *)
Example analyze_five_keywords_online :
  match returned (analyze configured
                    (validRequest "B" "oston Bruins" (Some "NHL") fiveKeywords)
                    onlineWorld) with
  | Some (Status200 resp) =>
      (map (fun a => (keyword a, opportunity a, isRealData a)) (analyses resp),
       totalKeywords resp, realDataCount (summary resp))
  | _ => ([], 0%nat, 0%nat)
  end
  = ([("first time at td garden", 7, true);
      ("td garden seating", 7, false);
      ("bruins tickets", 6, true);
      ("bruins parking", 6, true);
      ("bruins schedule", 6, false)], 5%nat, 3%nat).
Proof. vm_compute. reflexivity. Qed.

(** The scenario of the specification: three keywords and no credentials.
    No record is real, every cost is 0, and the first-timer keyword is a
    first-timer gap. *)
Example analyze_without_credentials :
  match returned (analyze (DATAFORSEO_CONFIG None None)
                    (validRequest "B" "oston Bruins" (Some "NHL")
                       ["bruins tickets"; "bruins parking";
                        "first time at td garden"])
                    onlineWorld) with
  | Some (Status200 resp) =>
      map (fun a => (keyword a, isRealData a, cost a, gapType a)) (analyses resp)
  | _ => []
  end
  = [("bruins tickets", false, 0%Q, "Ticket Reseller Dominance");
     ("first time at td garden", false, 0%Q, "First-Timer Experience Gap");
     ("bruins parking", false, 0%Q, "Arena Information Gap")].
Proof. vm_compute. reflexivity. Qed.

(* ================================================================== *)
(** ** More on the matcher *)

Lemma lowerChar_idempotent (c : ascii) :
  Js.lowerChar (Js.lowerChar c) = Js.lowerChar c.
Proof. destruct c as [[] [] [] [] [] [] [] []]; reflexivity. Qed.

Lemma toLowerCase_idempotent (s : string) :
  Js.toLowerCase (Js.toLowerCase s) = Js.toLowerCase s.
Proof.
  induction s as [|c s IH]; simpl; [reflexivity|].
  now rewrite lowerChar_idempotent, IH.
Qed.

(** X1.  A domain is a team site exactly when it is not empty and, lowered,
    contains the lowered form of one of the pieces that the single spaces cut
    the team name into. *)
Theorem X1_isTeamSite_some_word_in_domain (domain teamName : string) :
  isTeamSite (Some domain) teamName = true
  <-> domain <> "" /\
      exists word, In word (Js.split " " teamName) /\
                   Contains (Js.toLowerCase domain) (Js.toLowerCase word).
Proof.
  destruct domain as [|c d].
  - split; [discriminate | intros [H _]; congruence].
  - unfold isTeamSite, Js.some.
    rewrite split_toLowerCase, existsb_exists. split.
    + intros [w [Hin Hinc]]. split; [discriminate|].
      apply in_map_iff in Hin as [word [<- Hin]].
      exists word. split; [exact Hin | now apply includes_spec].
    + intros [_ [word [Hin Hc]]]. exists (Js.toLowerCase word). split.
      * now apply in_map.
      * now apply includes_spec.
Qed.

(** X2.  The matcher ignores the case of letters, in the domain and in the
    team name. *)
Theorem X2_isTeamSite_ignores_case (d1 d2 t1 t2 : string) :
  Js.toLowerCase d1 = Js.toLowerCase d2 ->
  Js.toLowerCase t1 = Js.toLowerCase t2 ->
  isTeamSite (Some d1) t1 = isTeamSite (Some d2) t2.
Proof.
  intros Hd Ht. unfold isTeamSite.
  destruct d1 as [|c1 d1], d2 as [|c2 d2]; try discriminate; [reflexivity|].
  now rewrite Hd, Ht.
Qed.

Lemma X2_witness :
  isTeamSite (Some "Shop.BostonBRUINS.com") "Boston Bruins"
  = isTeamSite (Some "shop.bostonbruins.com") "BOSTON bruins".
Proof.
  apply (X2_isTeamSite_ignores_case "Shop.BostonBRUINS.com" "shop.bostonbruins.com"
           "Boston Bruins" "BOSTON bruins"); reflexivity.
Defined.

(* ================================================================== *)
(** ** More on the strategist *)

(** X3.  [getContentSuggestion] takes the first rule that fits: first-timer
    keywords, then parking keywords, then seating keywords, then the generic
    guide. *)
Theorem X3_content_suggestion_first_match_wins (keyword : string) :
  (FirstTimer keyword ->
   getContentSuggestion keyword
   = {| title := "Complete First-Timer's Hockey Guide";
        format := "FAQ-style guide with arena tips and terminology";
        cta := "Buy Official Tickets" |}) /\
  (~ FirstTimer keyword -> Contains keyword "parking" ->
   getContentSuggestion keyword
   = {| title := "Ultimate Arena Parking Guide";
        format := "Interactive map with pricing and walking times";
        cta := "Reserve Parking & Tickets" |}) /\
  (~ FirstTimer keyword -> ~ Contains keyword "parking" ->
   Contains keyword "seating" ->
   getContentSuggestion keyword
   = {| title := "Interactive Arena Seating Guide";
        format := "Visual seating chart with ice view photos";
        cta := "Find Your Perfect Seats" |}) /\
  (~ FirstTimer keyword -> ~ Contains keyword "parking" ->
   ~ Contains keyword "seating" ->
   getContentSuggestion keyword
   = {| title := "Comprehensive Fan Guide";
        format := "Detailed FAQ with local tips";
        cta := "Get Tickets" |}).
Proof.
  unfold getContentSuggestion.
  destruct (bool_cases _ _ (firstTimer_spec keyword)) as [[-> HF] | [-> HF]];
    [repeat split; intros; first [reflexivity | tauto]|].
  destruct (bool_cases _ _ (includes_spec keyword "parking")) as [[-> HP] | [-> HP]];
    [repeat split; intros; first [reflexivity | tauto]|].
  destruct (bool_cases _ _ (includes_spec keyword "seating")) as [[-> HS] | [-> HS]];
    repeat split; intros; first [reflexivity | tauto].
Qed.

(** X4.  [getLLMStrategy] takes the first rule that fits: first-timer
    keywords, then parking or seating keywords, then the generic advice. *)
Theorem X4_llm_strategy_first_match_wins (keyword : string) :
  (FirstTimer keyword ->
   getLLMStrategy keyword
   = "Create conversational Q&A content optimized for voice search and AI assistants") /\
  (~ FirstTimer keyword ->
   Contains keyword "parking" \/ Contains keyword "seating" ->
   getLLMStrategy keyword
   = "Use structured data and local context for location-based AI search") /\
  (~ FirstTimer keyword ->
   ~ (Contains keyword "parking" \/ Contains keyword "seating") ->
   getLLMStrategy keyword
   = "Optimize with natural language and hockey-specific terminology for AI search").
Proof.
  unfold getLLMStrategy.
  assert (Hps : Js.includes keyword "parking" || Js.includes keyword "seating" = true
                <-> Contains keyword "parking" \/ Contains keyword "seating")
    by now rewrite orb_true_iff, !includes_spec.
  destruct (bool_cases _ _ (firstTimer_spec keyword)) as [[-> HF] | [-> HF]];
    [repeat split; intros; first [reflexivity | tauto]|].
  destruct (bool_cases _ _ Hps) as [[-> HP] | [-> HP]];
    repeat split; intros; first [reflexivity | tauto].
Qed.

(** X5.  The three mappings agree on the first-timer category, and the gap
    type and the content suggestion agree on the parking category, whatever
    the competitors. *)
Theorem X5_strategist_mappings_agree (keyword : string) (competitors : list string) :
  (getGapType keyword competitors = "First-Timer Experience Gap"
   <-> title (getContentSuggestion keyword) = "Complete First-Timer's Hockey Guide") /\
  (getGapType keyword competitors = "First-Timer Experience Gap"
   <-> getLLMStrategy keyword
       = "Create conversational Q&A content optimized for voice search and AI assistants") /\
  (getGapType keyword competitors = "Arena Information Gap"
   <-> title (getContentSuggestion keyword) = "Ultimate Arena Parking Guide").
Proof.
  unfold getGapType, getContentSuggestion, getLLMStrategy.
  destruct (Js.includes keyword "first time" || Js.includes keyword "what to expect");
    [repeat split; intros; first [reflexivity | discriminate]|].
  destruct (Js.includes keyword "parking");
    [cbn [orb]; repeat split; intros; first [reflexivity | discriminate]|].
  cbn [orb].
  destruct (Js.some _ competitors), (Js.includes keyword "seating"),
    (Js.includes keyword "arena");
    cbn [orb title]; repeat split; intros; first [reflexivity | discriminate].
Qed.

(** The gap type and the content suggestion part on an arena keyword. *)
Example arena_keyword_mappings_part :
  getGapType "arena food" [] = "Venue Experience Gap" /\
  title (getContentSuggestion "arena food") = "Comprehensive Fan Guide".
Proof. split; reflexivity. Qed.

(* ================================================================== *)
(** ** More on the scorer *)

(** X6.  The score is never below 4, so the lower end 3 of the clamp is never
    reached; it is never above 10; no rank gives more than the rank [-1];
    and a first-timer keyword never scores below 7. *)
Theorem X6_score_bounds (keyword : string) (teamRank : Z) (competitors : list string) :
  4 <= calculateOpportunityScore keyword teamRank competitors <= 10 /\
  calculateOpportunityScore keyword teamRank competitors
  <= calculateOpportunityScore keyword (-1) competitors /\
  (FirstTimer keyword ->
   7 <= calculateOpportunityScore keyword teamRank competitors).
Proof.
  pose proof (firstTimer_spec keyword) as HF.
  unfold calculateOpportunityScore. change (-1 =? -1) with true.
  destruct (Js.includes keyword "first time" || Js.includes keyword "what to expect"),
    (Js.includes keyword "parking"),
    (Js.includes keyword "tickets" || Js.includes keyword "cheap"),
    (Js.includes keyword "seating"),
    (Js.some _ competitors);
    cbv zeta;
    destruct (teamRank =? -1), (10 <? teamRank), (5 <? teamRank), (teamRank <=? 3);
    (split; [lia|]); (split; [lia|]); intros H; try lia;
    apply HF in H; discriminate.
Qed.

(** Both ends are reached. *)
Example score_four_and_ten :
  calculateOpportunityScore "bruins schedule" 1 [] = 4 /\
  calculateOpportunityScore "cheap first time parking" (-1) ["stubhub.com"] = 10.
Proof. split; reflexivity. Qed.

(** X7.  The shown team rank determines the rank: two ranks with the same
    text are the same rank, and the text is [Not found] only for [-1]. *)
Theorem X7_renderTeamRank_injective (r1 r2 : Z) :
  (renderTeamRank r1 = renderTeamRank r2 -> r1 = r2) /\
  (renderTeamRank r1 = "Not found" <-> r1 = -1).
Proof.
  unfold renderTeamRank. split.
  - destruct (Z.eqb_spec r1 (-1)), (Z.eqb_spec r2 (-1));
      try congruence; try discriminate.
    intros H. injection H as H.
    apply to_int_inj.
    assert (Hs : Some (Z.to_int r1) = Some (Z.to_int r2))
      by (rewrite <- !NilEmpty.isi; unfold Js.numberToString in H; now rewrite H).
    now injection Hs.
  - destruct (Z.eqb_spec r1 (-1)); split; try congruence; discriminate.
Qed.

(* ================================================================== *)
(** ** More on the simulation *)

(** X8.  The simulated competitors are always three, none of them empty; in
    a simulated record the gap type is the resale one exactly for a tickets
    keyword that is no first-timer and no parking keyword, and the resale
    bonus of the scorer is given exactly to the tickets keywords. *)
Theorem X8_simulated_competitors (keyword : string) :
  List.length (getSimulatedCompetitors keyword) = 3%nat /\
  Forall (fun c => c <> "") (getSimulatedCompetitors keyword) /\
  (getGapType keyword (getSimulatedCompetitors keyword) = "Ticket Reseller Dominance"
   <-> ~ FirstTimer keyword /\ ~ Contains keyword "parking" /\
       Contains keyword "tickets") /\
  (ResellerInside (getSimulatedCompetitors keyword) <-> Contains keyword "tickets").
Proof.
  pose proof (firstTimer_spec keyword) as HF.
  pose proof (includes_spec keyword "parking") as HP.
  pose proof (includes_spec keyword "tickets") as HT.
  rewrite <- (resellerInside_spec (getSimulatedCompetitors keyword)).
  unfold getGapType, getSimulatedCompetitors.
  destruct (Js.includes keyword "first time"), (Js.includes keyword "what to expect"),
    (Js.includes keyword "parking"), (Js.includes keyword "tickets"),
    (Js.includes keyword "seating"), (Js.includes keyword "arena");
    cbn in HF |- *;
    (split; [reflexivity|]);
    (split; [repeat constructor; discriminate|]);
    (split; [split; [try discriminate; intros _; intuition discriminate
                    | intros [H1 [H2 H3]]; first [reflexivity | exfalso; intuition discriminate]]
            | split; [intros H; first [discriminate H | now apply HT]
                     | intros H; first [reflexivity | apply HT in H; discriminate H]]]).
Qed.

(* ================================================================== *)
(** ** Counting draws and calls *)

Lemma Later_refl (w : World) : Later 0 0 w w.
Proof. split; intros; now rewrite Nat.add_0_r. Qed.

Lemma Later_trans (a b c d : nat) (w w1 w2 : World) :
  Later a b w w1 -> Later c d w1 w2 -> Later (a + c) (b + d) w w2.
Proof.
  intros [Hd1 Hf1] [Hd2 Hf2]. split; intros.
  - rewrite Hd2, Hd1. f_equal. lia.
  - rewrite Hf2, Hf1. f_equal. lia.
Qed.

Lemma Later_afterDraw (w : World) : Later 1 0 w (afterDraw w).
Proof.
  split; intros; simpl; [now rewrite Nat.add_1_r | now rewrite Nat.add_0_r].
Qed.

Lemma Later_afterFetch (w : World) : Later 0 1 w (afterFetch w).
Proof.
  split; intros; simpl; [now rewrite Nat.add_0_r | now rewrite Nat.add_1_r].
Qed.

Lemma Fair_later (kd kf : nat) (w w' : World) :
  Fair w -> Later kd kf w w' -> Fair w'.
Proof. intros Hfair [Hd _] n. rewrite Hd. apply Hfair. Qed.

Lemma floor_scaled_range (q : Q) (span : positive) :
  (0 <= q /\ q < 1)%Q ->
  0 <= Js.floor (q * (Z.pos span # 1)) < Z.pos span.
Proof.
  destruct q as [n d]. unfold Js.floor, Qle, Qlt. simpl.
  rewrite Pos.mul_1_r. intros [H0 H1].
  pose proof (Z.div_mod (n * Z.pos span) (Z.pos d) ltac:(lia)) as Hdm.
  pose proof (Z.mod_pos_bound (n * Z.pos span) (Z.pos d) ltac:(lia)) as Hb.
  split.
  - apply Z.div_pos; nia.
  - apply Z.div_lt_upper_bound; nia.
Qed.

(** X9.  The simulated search volume takes one draw and stays in the range
    of the first category that fits the keyword: tickets or cheap
    [[200, 1000)], first-timer [[150, 550)], parking [[100, 400)], otherwise
    [[50, 250)]. *)
Theorem X9_search_volume_ranges (keyword : string) (w : World) :
  (0 <= draws w 0%nat /\ draws w 0%nat < 1)%Q ->
  exists v,
    generateSimulatedSearchVolume keyword w = (Ok v, afterDraw w) /\
    (Contains keyword "tickets" \/ Contains keyword "cheap" -> 200 <= v < 1000) /\
    (~ (Contains keyword "tickets" \/ Contains keyword "cheap") ->
     FirstTimer keyword -> 150 <= v < 550) /\
    (~ (Contains keyword "tickets" \/ Contains keyword "cheap") ->
     ~ FirstTimer keyword -> Contains keyword "parking" -> 100 <= v < 400) /\
    (~ (Contains keyword "tickets" \/ Contains keyword "cheap") ->
     ~ FirstTimer keyword -> ~ Contains keyword "parking" -> 50 <= v < 250).
Proof.
  intros Hr.
  assert (Htc : Js.includes keyword "tickets" || Js.includes keyword "cheap" = true
                <-> Contains keyword "tickets" \/ Contains keyword "cheap")
    by now rewrite orb_true_iff, !includes_spec.
  pose proof (floor_scaled_range _ 800 Hr) as H800.
  pose proof (floor_scaled_range _ 400 Hr) as H400.
  pose proof (floor_scaled_range _ 300 Hr) as H300.
  pose proof (floor_scaled_range _ 200 Hr) as H200.
  unfold generateSimulatedSearchVolume.
  destruct (bool_cases _ _ Htc) as [[-> HT] | [-> HT]];
    [eexists; split; [reflexivity|]; repeat split; intros; first [lia | tauto]|].
  destruct (bool_cases _ _ (firstTimer_spec keyword)) as [[-> HF] | [-> HF]];
    [eexists; split; [reflexivity|]; repeat split; intros; first [lia | tauto]|].
  destruct (bool_cases _ _ (includes_spec keyword "parking")) as [[-> HP] | [-> HP]];
    eexists; (split; [reflexivity|]); repeat split; intros; first [lia | tauto].
Qed.

Lemma X9_witness :
  exists v,
    generateSimulatedSearchVolume "cheap seats" offlineWorld
    = (Ok v, afterDraw offlineWorld) /\
    (Contains "cheap seats" "tickets" \/ Contains "cheap seats" "cheap" ->
     200 <= v < 1000) /\
    (~ (Contains "cheap seats" "tickets" \/ Contains "cheap seats" "cheap") ->
     FirstTimer "cheap seats" -> 150 <= v < 550) /\
    (~ (Contains "cheap seats" "tickets" \/ Contains "cheap seats" "cheap") ->
     ~ FirstTimer "cheap seats" -> Contains "cheap seats" "parking" ->
     100 <= v < 400) /\
    (~ (Contains "cheap seats" "tickets" \/ Contains "cheap seats" "cheap") ->
     ~ FirstTimer "cheap seats" -> ~ Contains "cheap seats" "parking" ->
     50 <= v < 250).
Proof.
  apply (X9_search_volume_ranges "cheap seats" offlineWorld).
  apply (offlineWorld_fair 0%nat).
Defined.

(** The volume, for the loop: one draw, and a value from 50 to 999 when the
    draw is in [[0, 1)]. *)
Lemma searchVolume_tracked (keyword : string) (w : World) :
  exists v,
    generateSimulatedSearchVolume keyword w = (Ok v, afterDraw w) /\
    ((0 <= draws w 0%nat /\ draws w 0%nat < 1)%Q -> 50 <= v < 1000).
Proof.
  unfold generateSimulatedSearchVolume.
  destruct (_ || _); [|destruct (_ || _); [|destruct (Js.includes _ _)]];
    (eexists; split; [reflexivity|]); intros Hr.
  - pose proof (floor_scaled_range _ 800 Hr). lia.
  - pose proof (floor_scaled_range _ 400 Hr). lia.
  - pose proof (floor_scaled_range _ 300 Hr). lia.
  - pose proof (floor_scaled_range _ 200 Hr). lia.
Qed.

Lemma simulatedTeamRank_tracked (w : World) :
  exists rank w1 kd,
    simulatedTeamRank w = (Ok rank, w1) /\
    Later kd 0 w w1 /\ (1 <= kd <= 2)%nat /\
    (Fair w -> rank = -1 \/ 1 <= rank <= 10).
Proof.
  unfold simulatedTeamRank, bind, random. fold (afterDraw w).
  destruct (negb (Qle_bool (draws w 0%nat) (3 # 5))).
  - exists (-1), (afterDraw w), 1%nat. unfold ret.
    split; [reflexivity|]. split; [apply Later_afterDraw|]. split; [lia | auto].
  - eexists _, (afterDraw (afterDraw w)), 2%nat. unfold ret.
    split; [reflexivity|].
    split; [apply (Later_trans 1 0 1 0 w (afterDraw w)); apply Later_afterDraw|].
    split; [lia|]. intros Hfair. right.
    apply floor_times_ten_range. apply (Hfair 1%nat).
Qed.

Lemma coherent_of_fields (keyword' : string) (rank volume : Z)
    (cs : list string) (real : bool) (c : Q) :
  (List.length cs <= 3)%nat -> Forall (fun x => x <> "") cs ->
  Coherent {| keyword := keyword';
              opportunity := calculateOpportunityScore keyword' rank cs;
              gapType := getGapType keyword' cs;
              teamRank := renderTeamRank rank;
              competitors := Js.slice0 3 cs;
              contentSuggestion := getContentSuggestion keyword';
              llmStrategy := getLLMStrategy keyword';
              searchVolume := volume;
              isRealData := real;
              cost := c |}.
Proof.
  intros Hlen Hne. unfold Coherent, Js.slice0.
  cbn [keyword opportunity gapType teamRank competitors contentSuggestion llmStrategy].
  rewrite firstn_all2 by exact Hlen.
  split; [exists rank; now split|]. repeat split; auto.
Qed.

(** The simulation, for the loop. *)
Lemma createSimulatedAnalysis_tracked (keyword' teamName : string) (w : World) :
  exists a w' kd rank,
    createSimulatedAnalysis keyword' teamName w = (Ok a, w') /\
    Later kd 0 w w' /\ (2 <= kd <= 3)%nat /\
    keyword a = keyword' /\ isRealData a = false /\ Coherent a /\
    teamRank a = renderTeamRank rank /\
    (Fair w -> (rank = -1 \/ 1 <= rank <= 10) /\ 50 <= searchVolume a < 1000).
Proof.
  destruct (simulatedTeamRank_tracked w) as [rank [w1 [kd [Hrank [Hl [Hkd Hr]]]]]].
  destruct (searchVolume_tracked keyword' w1) as [v [Hvol Hv]].
  eexists _, (afterDraw w1), (kd + 1)%nat, rank. split.
  - unfold createSimulatedAnalysis.
    erewrite bind_ok by exact Hrank. erewrite bind_ok by exact Hvol.
    reflexivity.
  - split; [replace 0%nat with (0 + 0)%nat by reflexivity;
            eapply Later_trans; [exact Hl | apply Later_afterDraw]|].
    split; [lia|]. split; [reflexivity|]. split; [reflexivity|].
    split.
    + apply coherent_of_fields.
      * unfold getSimulatedCompetitors.
        repeat (destruct (Js.includes keyword' _); [simpl; lia|]). simpl; lia.
      * unfold getSimulatedCompetitors.
        repeat (destruct (Js.includes keyword' _);
                [repeat constructor; discriminate|]).
        repeat constructor; discriminate.
    + split; [reflexivity|]. intros Hfair. split; [now apply Hr|].
      cbn [searchVolume]. apply Hv. apply (Fair_later _ _ _ _ Hfair Hl 0%nat).
Qed.

(** X10.  With draws in [[0, 1)] the simulation takes two or three draws, makes
    no call to the provider, and returns a record that is not real data, whose
    team rank reads [Not found] or [#n] with [n] from 1 to 10, and whose
    search volume is from 50 to 999. *)
Theorem X10_simulated_record (keyword' teamName : string) (w : World) :
  Fair w ->
  exists a w' kd,
    createSimulatedAnalysis keyword' teamName w = (Ok a, w') /\
    Later kd 0 w w' /\ (2 <= kd <= 3)%nat /\
    isRealData a = false /\
    (teamRank a = "Not found" \/
     exists n, 1 <= n <= 10 /\ teamRank a = "#" ++ Js.numberToString n) /\
    50 <= searchVolume a < 1000.
Proof.
  intros Hfair.
  destruct (createSimulatedAnalysis_tracked keyword' teamName w)
    as [a [w' [kd [rank [Hrun [Hl [Hkd [_ [Hreal [_ [Hrank Hf]]]]]]]]]]].
  destruct (Hf Hfair) as [Hr Hv].
  exists a, w', kd. repeat (split; [assumption|]). split; [|exact Hv].
  rewrite Hrank. unfold renderTeamRank. destruct Hr as [-> | Hr]; [now left|].
  right. exists rank. split; [exact Hr|].
  destruct (Z.eqb_spec rank (-1)); [lia | reflexivity].
Qed.

Lemma X10_witness :
  exists a w' kd,
    createSimulatedAnalysis "bruins parking" "Boston Bruins" offlineWorld
    = (Ok a, w') /\
    Later kd 0 offlineWorld w' /\ (2 <= kd <= 3)%nat /\
    isRealData a = false /\
    (teamRank a = "Not found" \/
     exists n, 1 <= n <= 10 /\ teamRank a = "#" ++ Js.numberToString n) /\
    50 <= searchVolume a < 1000.
Proof.
  exact (X10_simulated_record "bruins parking" "Boston Bruins" offlineWorld
           offlineWorld_fair).
Defined.

(* ================================================================== *)
(** ** More on the provider client *)

(** X11.  A request to the provider makes exactly one call.  It returns the
    body when the reply arrived with a success status, parsed and carries the
    [status_code] 20000, and throws in every other case. *)
Theorem X11_request_returns_or_throws (cfg : Config) (endpoint : string)
    (data : list Api.TaskPost) (method : Api.Method) (w : World) :
  exists r,
    makeDataForSEORequest cfg endpoint data method w = (r, afterFetch w) /\
    match acceptedBody
            (replies w 0%nat
               {| Api.url := baseUrl cfg ++ endpoint;
                  Api.method := method;
                  Api.body := match method with
                              | Api.POST => Some data
                              | Api.GET => None
                              end |}) with
    | Some b => r = Ok b
    | None => exists e, r = Thrown e
    end.
Proof.
  destruct (acceptedBody _) as [b|] eqn:Hacc.
  - exists (Ok b). split; [|reflexivity].
    now apply makeDataForSEORequest_accepted.
  - destruct (makeDataForSEORequest_refused cfg endpoint data method w Hacc)
      as [e He].
    exists (Thrown e). split; [exact He | now exists e].
Qed.

(** The client makes one call or two. *)
Lemma getRealSERPData_tracked (cfg : Config) (keyword' : string) (w : World) :
  exists r w1 kf,
    getRealSERPData cfg keyword' w = (Ok r, w1) /\
    Later 0 kf w w1 /\ (1 <= kf <= 2)%nat /\
    (kf = 2%nat <->
     exists b1 taskId,
       acceptedBody (replies w 0%nat (submitRequest cfg keyword')) = Some b1 /\
       jobId b1 = Some taskId).
Proof.
  assert (Htwo : Later 0 2 w (afterFetch (afterFetch w)))
    by (apply (Later_trans 0 1 0 1 w (afterFetch w)); apply Later_afterFetch).
  destruct (acceptedBody (replies w 0%nat (submitRequest cfg keyword')))
    as [b1|] eqn:H1.
  - destruct (jobId b1) as [taskId|] eqn:Hjob.
    + destruct (acceptedBody (replies w 1%nat (retrieveRequest cfg taskId)))
        as [b2|] eqn:H2.
      * eexists _, _, 2%nat. split;
          [apply (getRealSERPData_retrieved cfg keyword' w b1 b2 taskId H1 Hjob H2)|].
        split; [exact Htwo|]. split; [lia|]. split; eauto.
      * eexists _, _, 2%nat. split;
          [apply (getRealSERPData_retrieve_refused cfg keyword' w b1 taskId H1 Hjob H2)|].
        split; [exact Htwo|]. split; [lia|]. split; eauto.
    + eexists _, _, 1%nat. split;
        [apply (getRealSERPData_job_rejected cfg keyword' w b1 H1 Hjob)|].
      split; [apply Later_afterFetch|]. split; [lia|].
      split; [discriminate|]. intros [b [t [Hb Ht]]]. congruence.
  - eexists _, _, 1%nat. split;
      [apply (getRealSERPData_submit_refused cfg keyword' w H1)|].
    split; [apply Later_afterFetch|]. split; [lia|].
    split; [discriminate|]. intros [b [t [Hb Ht]]]. congruence.
Qed.

(** X12.  The client makes at most two calls and takes no draw: the
    submission alone when it is refused or returns no job identifier, the
    submission and one retrieval otherwise.  There is no second attempt. *)
Theorem X12_client_calls (cfg : Config) (keyword' : string) (w : World) :
  exists r w1 kf,
    getRealSERPData cfg keyword' w = (Ok r, w1) /\
    Later 0 kf w w1 /\ (1 <= kf <= 2)%nat /\
    (kf = 2%nat <->
     exists b1 taskId,
       acceptedBody (replies w 0%nat (submitRequest cfg keyword')) = Some b1 /\
       jobId b1 = Some taskId).
Proof. apply getRealSERPData_tracked. Qed.

(* ================================================================== *)
(** ** More on the real-data path *)

Lemma all_present {A} (l : list (option A)) :
  In None l \/ exists l', l = map Some l'.
Proof.
  induction l as [|[x|] l IH].
  - right. now exists [].
  - destruct IH as [H | [l' ->]]; [left; now right|].
    right. now exists (x :: l').
  - left. now left.
Qed.

Lemma filterBoolean_In (l : list (option string)) (c : string) :
  In c (filterBoolean l) <-> c <> "" /\ In (Some c) l.
Proof.
  induction l as [|d l IH]; simpl; [tauto|].
  destruct d as [[|x s]|]; simpl; rewrite ?IH.
  - split; [intros [H1 H2]; auto|].
    intros [H1 [H2 | H2]]; [congruence | auto].
  - split.
    + intros [<- | [H1 H2]]; [split; [discriminate | now left] | auto].
    + intros [H1 [H2 | H2]]; [left; congruence | auto].
  - split; [intros [H1 H2]; auto|].
    intros [H1 [H2 | H2]]; [discriminate | auto].
Qed.

Lemma filterBoolean_length (l : list (option string)) :
  (List.length (filterBoolean l) <= List.length l)%nat.
Proof.
  induction l as [|d l IH]; simpl; [lia|].
  destruct d as [[|x s]|]; simpl; lia.
Qed.

Lemma filterBoolean_nonempty (l : list (option string)) :
  Forall (fun c => c <> "") (filterBoolean l).
Proof.
  apply Forall_forall. intros c Hc. now apply filterBoolean_In in Hc.
Qed.

Lemma topDomains_length (items : list Api.Item) :
  (List.length (filterBoolean (map Api.domain (firstn 3 items))) <= 3)%nat.
Proof.
  etransitivity; [apply filterBoolean_length|].
  rewrite length_map. apply firstn_le_length.
Qed.

(** The real path, for the loop: with every item present it takes one draw
    and returns its record; with a [null] item it throws and leaves the world
    as it was. *)
Lemma realAnalysis_cases (keyword' teamName : string) (serpData : Api.SerpData)
    (items : list (option Api.Item)) (w : World) :
  (exists its volume,
      items = map Some its /\
      realAnalysis keyword' teamName serpData items w
      = (Ok {| keyword := keyword';
               opportunity :=
                 calculateOpportunityScore keyword' (rankAfter teamName its 0 (-1))
                   (filterBoolean (map Api.domain (firstn 3 its)));
               gapType :=
                 getGapType keyword' (filterBoolean (map Api.domain (firstn 3 its)));
               teamRank := renderTeamRank (rankAfter teamName its 0 (-1));
               competitors :=
                 Js.slice0 3 (filterBoolean (map Api.domain (firstn 3 its)));
               contentSuggestion := getContentSuggestion keyword';
               llmStrategy := getLLMStrategy keyword';
               searchVolume := volume;
               isRealData := true;
               cost := costOrZero (Api.cost serpData) |}, afterDraw w) /\
      ((0 <= draws w 0%nat /\ draws w 0%nat < 1)%Q -> 50 <= volume < 1000))
  \/
  (In None items /\
   exists e, realAnalysis keyword' teamName serpData items w = (Thrown e, w)).
Proof.
  destruct (all_present items) as [Hnull | [its ->]].
  - right. split; [exact Hnull|]. unfold realAnalysis.
    pose proof (mapM_itemDomain_world (Js.slice0 3 items) w) as Hw.
    destruct (mapM itemDomain (Js.slice0 3 items) w) as [[ds|e] w1] eqn:E;
      simpl in Hw; subst w1.
    + destruct (forEachItem_null teamName items Hnull 0 (-1) w) as [e He].
      exists e. erewrite bind_ok by exact E.
      unfold findTeamRank. now erewrite bind_thrown by exact He.
    + exists e. now erewrite bind_thrown by exact E.
  - left. destruct (searchVolume_tracked keyword' w) as [volume [Hv Hrange]].
    exists its, volume. split; [reflexivity|]. split; [|exact Hrange].
    unfold realAnalysis.
    erewrite bind_ok
      by (unfold Js.slice0; rewrite firstn_map; apply mapM_itemDomain_present).
    unfold findTeamRank. erewrite bind_ok by apply forEachItem_present.
    erewrite bind_ok by exact Hv. reflexivity.
Qed.



(** A blank among the first three items is not made up for by the fourth. *)
Example blank_domain_shortens_competitors :
  filterBoolean
    (map Api.domain
       (firstn 3 [ {| Api.domain := None |}; site "espn.com"; site "nhl.com";
                   site "bruins.com" ]))
  = ["espn.com"; "nhl.com"].
Proof. reflexivity. Qed.

(* ================================================================== *)
(** ** More on the orchestrator *)

Lemma score_lower_bounds (keyword' : string) (rank : Z) (cs : list string) :
  4 <= calculateOpportunityScore keyword' rank cs <= 10 /\
  (FirstTimer keyword' -> 7 <= calculateOpportunityScore keyword' rank cs).
Proof.
  pose proof (firstTimer_spec keyword') as HF.
  unfold calculateOpportunityScore.
  destruct (Js.includes keyword' "first time" || Js.includes keyword' "what to expect"),
    (Js.includes keyword' "parking"),
    (Js.includes keyword' "tickets" || Js.includes keyword' "cheap"),
    (Js.includes keyword' "seating"),
    (Js.some _ cs);
    cbv zeta;
    destruct (rank =? -1), (10 <? rank), (5 <? rank), (rank <=? 3);
    (split; [lia|]); intros H; try lia; apply HF in H; discriminate.
Qed.

(** The inner [try]/[catch], for the loop. *)
Lemma tryRealAnalysis_tracked (cfg : Config) (keyword' teamName : string) (w : World) :
  exists a w' kd kf,
    tryRealAnalysis cfg keyword' teamName w = (Ok a, w') /\
    Later kd kf w w' /\ (1 <= kd <= 3)%nat /\ (1 <= kf <= 2)%nat /\
    keyword a = keyword' /\ Coherent a /\
    (Fair w -> 50 <= searchVolume a < 1000).
Proof.
  destruct (getRealSERPData_tracked cfg keyword' w)
    as [r [w1 [kf [Hget [Hl [Hkf _]]]]]].
  assert (Hfallback :
    forall e, (match r with
               | Some sd =>
                   match Api.items sd with
                   | Some items => realAnalysis keyword' teamName sd items
                   | None => throw "No SERP data returned"
                   end
               | None => throw "No SERP data returned"
               end) w1 = (Thrown e, w1) ->
    exists a w' kd kf,
      tryRealAnalysis cfg keyword' teamName w = (Ok a, w') /\
      Later kd kf w w' /\ (1 <= kd <= 3)%nat /\ (1 <= kf <= 2)%nat /\
      keyword a = keyword' /\ Coherent a /\
      (Fair w -> 50 <= searchVolume a < 1000)).
  { intros e He.
    destruct (createSimulatedAnalysis_tracked keyword' teamName w1)
      as [a [w' [kd [rank [Hsim [Hl' [Hkd [Hk [_ [Hc [_ Hf]]]]]]]]]]].
    exists a, w', kd, kf. split.
    - unfold tryRealAnalysis.
      erewrite tryCatch_thrown; [exact Hsim|].
      erewrite bind_ok by exact Hget. exact He.
    - split; [replace kd with (0 + kd)%nat by lia;
              replace kf with (kf + 0)%nat by lia;
              eapply Later_trans; eassumption|].
      split; [lia|]. split; [lia|]. split; [exact Hk|]. split; [exact Hc|].
      intros Hfair. apply Hf. eapply Fair_later; eassumption. }
  destruct r as [sd|]; [|apply (Hfallback "No SERP data returned"); reflexivity].
  destruct (Api.items sd) as [items|] eqn:Hitems;
    [|apply (Hfallback "No SERP data returned"); cbv beta iota; rewrite ?Hitems;
      reflexivity].
  destruct (realAnalysis_cases keyword' teamName sd items w1)
    as [[its [volume [-> [Hreal Hv]]]] | [_ [e He]]];
    [|apply (Hfallback e); cbv beta iota; rewrite ?Hitems; exact He].
  eexists _, (afterDraw w1), 1%nat, kf. split.
  - unfold tryRealAnalysis. apply tryCatch_ok.
    erewrite bind_ok by exact Hget. cbv beta iota. rewrite Hitems. exact Hreal.
  - split; [replace kf with (kf + 0)%nat by lia;
            apply (Later_trans 0 kf 1 0 w w1); [exact Hl | apply Later_afterDraw]|].
    split; [lia|]. split; [lia|]. split; [reflexivity|].
    split; [apply coherent_of_fields;
            [apply topDomains_length | apply filterBoolean_nonempty]|].
    intros Hfair. cbn [searchVolume]. apply Hv.
    apply (Fair_later _ _ _ _ Hfair Hl 0%nat).
Qed.

Lemma analyzeKeyword_tracked (cfg : Config) (teamName : string) (i : nat)
    (keyword' : string) (w : World) :
  exists a w' kd kf,
    analyzeKeyword cfg teamName i keyword' w = (Ok a, w') /\
    Later kd kf w w' /\ (1 <= kd <= 3)%nat /\ (kf <= 2)%nat /\
    ((i <? maxRealAnalyses)%nat && hasCredentials cfg = false -> kf = 0%nat) /\
    keyword a = keyword' /\ Coherent a /\
    (Fair w -> 50 <= searchVolume a < 1000).
Proof.
  unfold analyzeKeyword.
  destruct ((i <? maxRealAnalyses)%nat && hasCredentials cfg).
  - destruct (tryRealAnalysis_tracked cfg keyword' teamName w)
      as [a [w' [kd [kf [Hrun [Hl [Hkd [Hkf [Hk [Hc Hf]]]]]]]]]].
    exists a, w', kd, kf. repeat (split; [assumption || lia || discriminate|]).
    exact Hf.
  - destruct (createSimulatedAnalysis_tracked keyword' teamName w)
      as [a [w' [kd [rank [Hsim [Hl [Hkd [Hk [_ [Hc [_ Hf]]]]]]]]]]].
    exists a, w', kd, 0%nat. repeat (split; [assumption || lia || reflexivity|]).
    intros Hfair. now apply Hf.
Qed.

Lemma keywordLoop_tracked (cfg : Config) (teamName : string)
    (keywords : list string) (steps : nat) :
  forall (i : nat) (acc : list Analysis) (w : World),
  exists records w' kd kf,
    keywordLoop cfg teamName keywords steps i acc w
    = (Ok (acc ++ records)%list, w') /\
    Later kd kf w w' /\
    (steps <= kd <= 3 * steps)%nat /\
    (kf <= 2 * steps)%nat /\ (kf <= 2 * (maxRealAnalyses - i))%nat /\
    (hasCredentials cfg = false -> kf = 0%nat) /\
    Forall Coherent records /\
    (Fair w -> Forall (fun a => 50 <= searchVolume a < 1000) records).
Proof.
  induction steps as [|steps IH]; intros i acc w.
  - exists [], w, 0%nat, 0%nat. rewrite app_nil_r.
    split; [reflexivity|]. split; [apply Later_refl|].
    repeat (split; [lia || auto|]). auto.
  - destruct (analyzeKeyword_tracked cfg teamName i (keywordAt keywords i) w)
      as [a [w1 [kd1 [kf1 [Ha [Hl1 [Hkd1 [Hkf1 [Helig [_ [Hc Hv]]]]]]]]]]].
    destruct (IH (S i) (acc ++ [a])%list w1)
      as [records [w' [kd2 [kf2 [Hloop [Hl2 [Hkd2 [Hkf2 [Hcap [Hnone [Hcs Hvs]]]]]]]]]]].
    exists (a :: records), w', (kd1 + kd2)%nat, (kf1 + kf2)%nat.
    split; [cbn [keywordLoop]; erewrite bind_ok by exact Ha;
            rewrite Hloop, <- app_assoc; reflexivity|].
    split; [eapply Later_trans; eassumption|].
    split; [lia|]. split; [lia|].
    split.
    + destruct (Nat.ltb_spec i maxRealAnalyses) as [Hi | Hi].
      * lia.
      * rewrite Helig by reflexivity. lia.
    + split.
      * intros Hcfg. rewrite Hnone by exact Hcfg.
        rewrite Helig; [reflexivity|]. rewrite Hcfg. apply andb_false_r.
      * split; [now constructor|].
        intros Hfair. constructor; [now apply Hv|].
        apply Hvs. eapply Fair_later; eassumption.
Qed.

(** The handler on a valid request, with the draws and the calls counted. *)
Lemma analyze_tracked (cfg : Config) (c : ascii) (t : string)
    (league' : option string) (keywords : list string) (w : World) :
  exists records w' kd kf,
    analyze cfg (validRequest c t league' keywords) w
    = (Ok (Status200
             {| success := true;
                teamName := String c t;
                league := league';
                totalKeywords := List.length keywords;
                analyses := Js.sort byOpportunity records;
                summary := summarize (Js.sort byOpportunity records) |}), w') /\
    List.length records = Nat.min 5 (List.length keywords) /\
    Later kd kf w w' /\
    (kd <= 15)%nat /\ (kf <= 6)%nat /\ (kf <= 2 * List.length keywords)%nat /\
    (hasCredentials cfg = false -> kf = 0%nat) /\
    Forall Coherent records /\
    (Fair w -> Forall (fun a => 50 <= searchVolume a < 1000) records).
Proof.
  destruct (keywordLoop_tracked cfg (String c t) keywords
              (Nat.min 5 (List.length keywords)) 0 [] w)
    as [records [w' [kd [kf [Hloop [Hl [Hkd [Hkf [Hcap [Hnone [Hcs Hvs]]]]]]]]]]].
  destruct (processKeywords_returns cfg (String c t) keywords w)
    as [records' [w2 [Hrun [Hlen _]]]].
  destruct (analyze_valid cfg c t league' keywords w)
    as [records'' [w3 [Hrun' Hresp]]].
  unfold processKeywords in Hrun, Hrun'. simpl app in Hloop.
  assert (records' = records /\ w2 = w') as [-> ->] by (split; congruence).
  assert (records'' = records /\ w3 = w') as [-> ->] by (split; congruence).
  exists records, w', kd, kf. split; [exact Hresp|]. split; [exact Hlen|].
  split; [exact Hl|]. unfold maxRealAnalyses in Hcap.
  repeat (split; [lia || assumption|]). exact Hvs.
Qed.

Lemma Forall_sort {A} (cmp : A -> A -> Z) (P : A -> Prop) (l : list A) :
  Forall P l -> Forall P (Js.sort cmp l).
Proof.
  rewrite !Forall_forall. intros H x Hx. apply H.
  eapply Permutation_in; [apply sort_perm | exact Hx].
Qed.

(** X14.  Every record of a response is coherent: its opportunity and its
    shown team rank come from one rank, its gap type from the competitors it
    lists, its suggestion and strategy from its keyword; it lists at most
    three competitors, none empty.  Its opportunity is from 4 to 10, and the
    record of a first-timer keyword has opportunity 7 or more and the
    first-timer gap type. *)
Theorem X14_records_coherent (cfg : Config) (c : ascii) (t : string)
    (league' : option string) (keywords : list string) (w : World) :
  exists resp w',
    analyze cfg (validRequest c t league' keywords) w = (Ok (Status200 resp), w') /\
    Forall Coherent (analyses resp) /\
    Forall (fun a => 4 <= opportunity a <= 10) (analyses resp) /\
    Forall (fun a => FirstTimer (keyword a) ->
                     7 <= opportunity a /\
                     gapType a = "First-Timer Experience Gap")
           (analyses resp).
Proof.
  destruct (analyze_tracked cfg c t league' keywords w)
    as [records [w' [kd [kf [Hresp [_ [_ [_ [_ [_ [_ [Hcs _]]]]]]]]]]]].
  eexists _, w'. split; [exact Hresp|]. cbn [analyses].
  assert (Hsorted : Forall Coherent (Js.sort byOpportunity records))
    by now apply Forall_sort.
  split; [exact Hsorted|].
  split; eapply Forall_impl; try exact Hsorted;
    intros a [[rank [Hopp _]] [Hgap _]].
  - rewrite Hopp. apply score_lower_bounds.
  - intros HF. split.
    + rewrite Hopp. now apply score_lower_bounds.
    + rewrite Hgap. unfold getGapType.
      apply firstTimer_spec in HF. now rewrite HF.
Qed.

Lemma total_volume_bounds (l : list Analysis) :
  Forall (fun a => 50 <= searchVolume a < 1000) l ->
  50 * Z.of_nat (List.length l) <= total searchVolume l
  <= 999 * Z.of_nat (List.length l).
Proof.
  induction 1 as [|a l Ha _ IH]; [simpl; lia|].
  cbn [total fold_right List.length]. fold (total searchVolume l).
  rewrite Nat2Z.inj_succ. lia.
Qed.

(** X15.  With draws in [[0, 1)], every record of a response has a search
    volume from 50 to 999, and the total of the summary lies between 50 and
    999 times the number of records. *)
Theorem X15_search_volume_in_response (cfg : Config) (c : ascii) (t : string)
    (league' : option string) (keywords : list string) (w : World) :
  Fair w ->
  exists resp w',
    analyze cfg (validRequest c t league' keywords) w = (Ok (Status200 resp), w') /\
    Forall (fun a => 50 <= searchVolume a < 1000) (analyses resp) /\
    50 * Z.of_nat (List.length (analyses resp))
    <= totalSearchVolume (summary resp)
    <= 999 * Z.of_nat (List.length (analyses resp)).
Proof.
  intros Hfair.
  destruct (analyze_tracked cfg c t league' keywords w)
    as [records [w' [kd [kf [Hresp [_ [_ [_ [_ [_ [_ [_ Hvs]]]]]]]]]]]].
  eexists _, w'. split; [exact Hresp|].
  cbn [analyses summary summarize totalSearchVolume].
  assert (Hsorted : Forall (fun a => 50 <= searchVolume a < 1000)
                      (Js.sort byOpportunity records))
    by (apply Forall_sort; now apply Hvs).
  split; [exact Hsorted|].
  rewrite fold_left_sum, Z.add_0_l. now apply total_volume_bounds.
Qed.

Lemma X15_witness :
  exists resp w',
    analyze configured (validRequest "B" "oston Bruins" (Some "NHL") fiveKeywords)
      onlineWorld = (Ok (Status200 resp), w') /\
    Forall (fun a => 50 <= searchVolume a < 1000) (analyses resp) /\
    50 * Z.of_nat (List.length (analyses resp))
    <= totalSearchVolume (summary resp)
    <= 999 * Z.of_nat (List.length (analyses resp)).
Proof.
  apply (X15_search_volume_in_response configured "B" "oston Bruins" (Some "NHL")
           fiveKeywords onlineWorld).
  intros n. split; [unfold Qle | unfold Qlt]; simpl; lia.
Defined.

(** X16.  A request makes at most six calls to the provider, two for each of
    the first three keywords, and takes at most fifteen draws; it makes no
    call when the login or the password is missing. *)
Theorem X16_provider_calls_bounded (cfg : Config) (c : ascii) (t : string)
    (league' : option string) (keywords : list string) (w : World) :
  exists resp w' kd kf,
    analyze cfg (validRequest c t league' keywords) w = (Ok (Status200 resp), w') /\
    Later kd kf w w' /\
    (kf <= 6)%nat /\ (kf <= 2 * List.length keywords)%nat /\ (kd <= 15)%nat /\
    (Js.truthy (login cfg) = false \/ Js.truthy (password cfg) = false ->
     kf = 0%nat).
Proof.
  destruct (analyze_tracked cfg c t league' keywords w)
    as [records [w' [kd [kf [Hresp [_ [Hl [Hkd [Hkf [Hkf' [Hnone _]]]]]]]]]]].
  eexists _, w', kd, kf. split; [exact Hresp|]. split; [exact Hl|].
  repeat (split; [assumption|]).
  intros Hmissing. apply Hnone. unfold hasCredentials.
  destruct Hmissing as [-> | ->]; [reflexivity | apply andb_false_r].
Qed.


Lemma keywordLoop_without_credentials (cfg : Config) (t1 t2 : string)
    (keywords : list string) (steps : nat) :
  hasCredentials cfg = false ->
  forall i acc w,
    keywordLoop cfg t1 keywords steps i acc w
    = keywordLoop cfg t2 keywords steps i acc w.
Proof.
  intros Hcfg. induction steps as [|steps IH]; intros i acc w; [reflexivity|].
  cbn [keywordLoop]. unfold bind, analyzeKeyword.
  rewrite Hcfg, andb_false_r.
  change (createSimulatedAnalysis (keywordAt keywords i) t2)
    with (createSimulatedAnalysis (keywordAt keywords i) t1).
  destruct (createSimulatedAnalysis (keywordAt keywords i) t1 w) as [[a|e] w1];
    [apply IH | reflexivity].
Qed.

(** X18.  When the login or the password is missing, the records and the
    summary of a response do not depend on the team name. *)
Theorem X18_team_name_unused_without_credentials (cfg : Config)
    (c1 c2 : ascii) (t1 t2 : string) (league' : option string)
    (keywords : list string) (w : World) :
  hasCredentials cfg = false ->
  exists resp1 resp2 w',
    analyze cfg (validRequest c1 t1 league' keywords) w = (Ok (Status200 resp1), w') /\
    analyze cfg (validRequest c2 t2 league' keywords) w = (Ok (Status200 resp2), w') /\
    analyses resp1 = analyses resp2 /\
    summary resp1 = summary resp2.
Proof.
  intros Hcfg.
  destruct (analyze_valid cfg c1 t1 league' keywords w) as [r1 [w1 [Hrun1 Hresp1]]].
  destruct (analyze_valid cfg c2 t2 league' keywords w) as [r2 [w2 [Hrun2 Hresp2]]].
  unfold processKeywords in Hrun1, Hrun2.
  rewrite (keywordLoop_without_credentials cfg (String c1 t1) (String c2 t2)
             keywords _ Hcfg) in Hrun1.
  assert (r1 = r2 /\ w1 = w2) as [-> ->] by (split; congruence).
  eexists _, _, w2. split; [exact Hresp1|]. split; [exact Hresp2|].
  split; reflexivity.
Qed.

Lemma X18_witness :
  exists resp1 resp2 w',
    analyze (DATAFORSEO_CONFIG None (Some "secret"))
      (validRequest "B" "oston Bruins" None fiveKeywords) onlineWorld
    = (Ok (Status200 resp1), w') /\
    analyze (DATAFORSEO_CONFIG None (Some "secret"))
      (validRequest "O" "ttawa Senators" None fiveKeywords) onlineWorld
    = (Ok (Status200 resp2), w') /\
    analyses resp1 = analyses resp2 /\
    summary resp1 = summary resp2.
Proof.
  exact (X18_team_name_unused_without_credentials
           (DATAFORSEO_CONFIG None (Some "secret"))
           "B" "O" "oston Bruins" "ttawa Senators" None fiveKeywords onlineWorld
           eq_refl).
Defined.

Lemma keywordLoop_same_keywords (cfg : Config) (teamName : string)
    (k1 k2 : list string) (steps : nat) :
  forall i acc w,
    (forall j, (i <= j < i + steps)%nat -> keywordAt k1 j = keywordAt k2 j) ->
    keywordLoop cfg teamName k1 steps i acc w
    = keywordLoop cfg teamName k2 steps i acc w.
Proof.
  induction steps as [|steps IH]; intros i acc w Hsame; [reflexivity|].
  cbn [keywordLoop]. unfold bind.
  rewrite (Hsame i) by lia.
  destruct (analyzeKeyword cfg teamName i (keywordAt k2 i) w) as [[a|e] w1];
    [|reflexivity].
  apply IH. intros j Hj. apply Hsame. lia.
Qed.

(** X19.  The keywords after the fifth change nothing but [totalKeywords]:
    the records, the summary and the world after the request are those of the
    request with the first five keywords alone. *)
Theorem X19_keywords_after_fifth_ignored (cfg : Config) (c : ascii) (t : string)
    (league' : option string) (keywords : list string) (w : World) :
  exists resp resp5 w',
    analyze cfg (validRequest c t league' keywords) w = (Ok (Status200 resp), w') /\
    analyze cfg (validRequest c t league' (firstn 5 keywords)) w
    = (Ok (Status200 resp5), w') /\
    analyses resp = analyses resp5 /\
    summary resp = summary resp5 /\
    totalKeywords resp = List.length keywords /\
    totalKeywords resp5 = Nat.min 5 (List.length keywords).
Proof.
  destruct (analyze_valid cfg c t league' keywords w) as [r1 [w1 [Hrun1 Hresp1]]].
  destruct (analyze_valid cfg c t league' (firstn 5 keywords) w)
    as [r2 [w2 [Hrun2 Hresp2]]].
  unfold processKeywords in Hrun1, Hrun2.
  replace (Nat.min 5 (List.length (firstn 5 keywords)))
    with (Nat.min 5 (List.length keywords)) in Hrun2
    by (rewrite length_firstn; lia).
  rewrite (keywordLoop_same_keywords cfg (String c t) (firstn 5 keywords) keywords)
    in Hrun2.
  - assert (r1 = r2 /\ w1 = w2) as [-> ->] by (split; congruence).
    eexists _, _, w2. split; [exact Hresp1|]. split; [exact Hresp2|].
    cbn [analyses summary totalKeywords].
    repeat split. apply length_firstn.
  - intros j Hj. unfold keywordAt. rewrite nth_firstn.
    destruct (Nat.ltb_spec j 5); [reflexivity | lia].
Qed.
